(** * NFC token lifecycle of the contacts backend

    A shallow embedding of [app/api/nfc.py] (token issuance, validation and
    redemption) together with the parts of [app/core/crud.py],
    [app/core/error_handling.py] and [app/core/config.py] it relies on.

    The handlers are [async] request handlers that talk to an external
    relational store.  They are modelled as computations in a state-and-
    exception monad over the three tables the module touches.  A write that
    happened before an exception is raised stays in the store: the handlers
    use no transaction.  One handler runs at a time (sequential requests);
    the store answers every call, so the [except Exception] branches of the
    handlers are embedded but never taken. *)

From Stdlib Require Import List String Ascii ZArith Bool Arith Lia.
Import ListNotations.

Local Open Scope string_scope.
Local Open Scope list_scope.

(** ** Data model *)

(** [Literal["family", "friends", "work", "acquaintances"]] *)
Inductive ProfileType : Type :=
| family
| friends
| work
| acquaintances.

Definition ProfileType_eqb (a b : ProfileType) : bool :=
  match a, b with
  | family, family => true
  | friends, friends => true
  | work, work => true
  | acquaintances, acquaintances => true
  | _, _ => false
  end.

Definition ProfileType_str (a : ProfileType) : string :=
  match a with
  | family => "family"
  | friends => "friends"
  | work => "work"
  | acquaintances => "acquaintances"
  end.

(** Instants are counted in microseconds, the resolution of [datetime].
    [isoformat] followed by [fromisoformat] gives the instant back. *)
Definition datetime : Type := Z.

Definition timedelta_minutes (minutes : Z) : Z := (minutes * 60 * 1000000)%Z.

(** A row of table [nfc_tokens], with the columns the module reads or
    writes. *)
Record NFCToken : Type := mkNFCToken {
  tk_id : nat;
  tk_user_id : string;
  tk_token : string;
  tk_profile_type : ProfileType;
  tk_is_active : bool;
  tk_expires_at : datetime
}.

(** A row of table [connections]. *)
Record Connection : Type := mkConnection {
  cn_id : nat;
  cn_user_id : string;
  cn_connected_user_id : string;
  cn_connection_type : ProfileType
}.

(** A row of table [profiles]; the attributes of a profile are opaque to
    this module. *)
Record Profile : Type := mkProfile {
  pf_id : nat;
  pf_user_id : string;
  pf_type : ProfileType;
  pf_data : string
}.

(** The external store: the three tables and the identifier the store gives
    to the next inserted row. *)
Record Store : Type := mkStore {
  nfc_tokens : list NFCToken;
  connections : list Connection;
  profiles : list Profile;
  next_id : nat
}.

(** ** Exceptions ([app/core/error_handling.py]) *)

Inductive ErrorCode : Type :=
| PROFILE_NOT_FOUND
| TOKEN_GENERATION_FAILED
| INVALID_TOKEN
| EXPIRED_TOKEN
| TOKEN_VALIDATION_FAILED
| SELF_CONNECTION
| CONNECTION_EXISTS
| CONNECTION_FAILED.

Inductive Exception : Type :=
| ContactsException (error_code : ErrorCode) (message : string)
| ValueError (message : string).

Definition str (e : Exception) : string :=
  match e with
  | ContactsException _ m => m
  | ValueError m => m
  end.

(** ** The monad of a request handler *)

Inductive Result (A : Type) : Type :=
| Ok (a : A)
| Raise (e : Exception).

Arguments Ok {A} a.
Arguments Raise {A} e.

Definition M (A : Type) : Type := Store -> Store * Result A.

Definition ret {A : Type} (a : A) : M A := fun s => (s, Ok a).

Definition raise {A : Type} (e : Exception) : M A := fun s => (s, Raise e).

Definition bind {A B : Type} (m : M A) (k : A -> M B) : M B :=
  fun s =>
    match m s with
    | (s', Ok a) => k a s'
    | (s', Raise e) => (s', Raise e)
    end.

Notation "x <- m ;; k" := (bind m (fun x => k))
  (at level 61, m at next level, right associativity).
Notation "m ;;; k" := (bind m (fun _ => k))
  (at level 61, right associativity).

(** [try: body except ContactsException: raise
     except Exception as e: raise ContactsException(error_code, str(e))] *)
Definition try_except {A : Type} (error_code : ErrorCode) (body : M A) : M A :=
  fun s =>
    match body s with
    | (s', Ok a) => (s', Ok a)
    | (s', Raise (ContactsException c m)) => (s', Raise (ContactsException c m))
    | (s', Raise (ValueError m)) => (s', Raise (ContactsException error_code m))
    end.

(** [for x in xs: body(x)] *)
Fixpoint for_each {A : Type} (xs : list A) (body : A -> M unit) : M unit :=
  match xs with
  | [] => ret tt
  | x :: xs' => body x ;;; for_each xs' body
  end.

(** ** The store interface ([app/core/crud.py]) *)

Module SupabaseCRUD.
Section Table.
Context {R : Type}.

(** [select("*").match(query)]: the rows that agree with the query on
    every column it names, in table order. *)
Definition read (query : R -> bool) (table : list R) : list R :=
  filter query table.

(** [update(update_data).eq(id_column, id_value)] *)
Definition update (id_column : R -> nat) (id_value : nat)
    (update_data : R -> R) (table : list R) : list R :=
  map (fun r => if Nat.eqb (id_column r) id_value then update_data r else r)
    table.

(** [insert(data)]: the store fills in the identifier. *)
Definition create (data : nat -> R) (fresh : nat) (table : list R) : list R :=
  table ++ [data fresh].
End Table.
End SupabaseCRUD.

(** [{"is_active": False}] *)
Definition set_inactive (t : NFCToken) : NFCToken :=
  mkNFCToken (tk_id t) (tk_user_id t) (tk_token t) (tk_profile_type t)
    false (tk_expires_at t).

Definition with_nfc_tokens (ts : list NFCToken) (s : Store) : Store :=
  mkStore ts (connections s) (profiles s) (next_id s).

Definition with_connections (cs : list Connection) (s : Store) : Store :=
  mkStore (nfc_tokens s) cs (profiles s) (next_id s).

Definition bump_next_id (s : Store) : Store :=
  mkStore (nfc_tokens s) (connections s) (profiles s) (S (next_id s)).

(** [nfc_crud = SupabaseCRUD("nfc_tokens")] *)
Definition nfc_crud_read (query : NFCToken -> bool) : M (list NFCToken) :=
  fun s => (s, Ok (SupabaseCRUD.read query (nfc_tokens s))).

Definition nfc_crud_update (id_value : nat) (update_data : NFCToken -> NFCToken)
    : M unit :=
  fun s =>
    (with_nfc_tokens
       (SupabaseCRUD.update tk_id id_value update_data (nfc_tokens s)) s,
     Ok tt).

Definition nfc_crud_create (data : nat -> NFCToken) : M (option NFCToken) :=
  fun s =>
    (bump_next_id
       (with_nfc_tokens (SupabaseCRUD.create data (next_id s) (nfc_tokens s)) s),
     Ok (Some (data (next_id s)))).

(** [profile_crud = SupabaseCRUD("profiles")] *)
Definition profile_crud_read (query : Profile -> bool) : M (list Profile) :=
  fun s => (s, Ok (SupabaseCRUD.read query (profiles s))).

(** [connections_crud = SupabaseCRUD("connections")] *)
Definition connections_crud_read (query : Connection -> bool)
    : M (list Connection) :=
  fun s => (s, Ok (SupabaseCRUD.read query (connections s))).

Definition connections_crud_create (data : nat -> Connection)
    : M (option Connection) :=
  fun s =>
    (bump_next_id
       (with_connections
          (SupabaseCRUD.create data (next_id s) (connections s)) s),
     Ok (Some (data (next_id s)))).

(** ** Configuration ([app/core/config.py]) *)

Definition NFC_TOKEN_EXPIRE_MINUTES : Z := 60%Z.

(** ** Token generation *)

(** [string.ascii_letters + string.digits] *)
Definition ascii_letters : string :=
  "abcdefghijklmnopqrstuvwxyzABCDEFGHIJKLMNOPQRSTUVWXYZ".

Definition digits : string := "0123456789".

(** [secrets.choice(seq)] is [seq[randbelow(len(seq))]]; the number drawn
    from the system's entropy source is an argument. *)
Definition secrets_choice (seq : string) (entropy : nat) : ascii :=
  nth (entropy mod String.length seq) (list_ascii_of_string seq) zero.

(** [generate_token]: the [i]-th character consumes the [i]-th draw. *)
Definition generate_token (length : nat) (rnd : nat -> nat) : string :=
  let alphabet := (ascii_letters ++ digits)%string in
  string_of_list_ascii
    (map (fun i => secrets_choice alphabet (rnd i)) (seq 0 length)).

(** ** Request handlers ([app/api/nfc.py]) *)

Record NFCTokenResponse : Type := mkNFCTokenResponse {
  token : string;
  profile_type : ProfileType;
  expires_at : datetime
}.

Record ValidateResponse : Type := mkValidateResponse {
  vr_profile : Profile;
  vr_user_id : string
}.

Record ConnectResponse : Type := mkConnectResponse {
  cr_message : string;
  cr_connection : option Connection;
  cr_profile : option Profile
}.

(** [not xs] on a list *)
Definition is_empty {A : Type} (xs : list A) : bool :=
  match xs with
  | [] => true
  | _ :: _ => false
  end.

(** [{"user_id": user_id, "type": profile_type}] *)
Definition profile_query (user_id : string) (ty : ProfileType)
    : Profile -> bool :=
  fun p => String.eqb (pf_user_id p) user_id && ProfileType_eqb (pf_type p) ty.

(** [{"user_id": user_id, "profile_type": profile_type, "is_active": True}] *)
Definition active_tokens_query (user_id : string) (ty : ProfileType)
    : NFCToken -> bool :=
  fun t =>
    String.eqb (tk_user_id t) user_id
    && ProfileType_eqb (tk_profile_type t) ty
    && Bool.eqb (tk_is_active t) true.

(** [{"token": token, "is_active": True}] *)
Definition token_query (token : string) : NFCToken -> bool :=
  fun t => String.eqb (tk_token t) token && Bool.eqb (tk_is_active t) true.

(** [{"user_id": user_id, "connected_user_id": target_user_id}] *)
Definition connection_query (user_id target_user_id : string)
    : Connection -> bool :=
  fun c =>
    String.eqb (cn_user_id c) user_id
    && String.eqb (cn_connected_user_id c) target_user_id.

(** [POST /generate] for the authenticated [user_id], at instant [now], with
    the draws [rnd] of the random generator. *)
Definition generate_nfc_token (user_id : string) (token_data : ProfileType)
    (now : datetime) (rnd : nat -> nat) : M NFCTokenResponse :=
  try_except TOKEN_GENERATION_FAILED
    (profiles <- profile_crud_read (profile_query user_id token_data) ;;
     if is_empty profiles then
       raise (ContactsException PROFILE_NOT_FOUND
                ("Profile of type '" ++ ProfileType_str token_data
                 ++ "' not found")%string)
     else
       let expires_at := (now + timedelta_minutes NFC_TOKEN_EXPIRE_MINUTES)%Z in
       let token := generate_token 32 rnd in
       existing_tokens <-
         nfc_crud_read (active_tokens_query user_id token_data) ;;
       for_each existing_tokens
         (fun existing_token =>
            nfc_crud_update (tk_id existing_token) set_inactive) ;;;
       nfc_crud_create
         (fun id => mkNFCToken id user_id token token_data true expires_at) ;;;
       ret (mkNFCTokenResponse token token_data expires_at)).

(** [GET /validate/{token}] at instant [now]. *)
Definition validate_nfc_token (token : string) (now : datetime)
    : M ValidateResponse :=
  try_except TOKEN_VALIDATION_FAILED
    (tokens <- nfc_crud_read (token_query token) ;;
     match tokens with
     | [] =>
         raise (ContactsException INVALID_TOKEN "Invalid or expired token")
     | token_data :: _ =>
         let expires_at := tk_expires_at token_data in
         if (expires_at <? now)%Z then
           nfc_crud_update (tk_id token_data) set_inactive ;;;
           raise (ContactsException EXPIRED_TOKEN "Token has expired")
         else
           profile <-
             profile_crud_read
               (profile_query (tk_user_id token_data)
                  (tk_profile_type token_data)) ;;
           match profile with
           | [] =>
               raise (ContactsException PROFILE_NOT_FOUND
                        "Associated profile not found")
           | p :: _ => ret (mkValidateResponse p (tk_user_id token_data))
           end
     end).

(** [POST /connect/{token}] for the authenticated [user_id], at instant
    [now]. *)
Definition connect_via_nfc (token : string) (user_id : string)
    (now : datetime) : M ConnectResponse :=
  try_except CONNECTION_FAILED
    (tokens <- nfc_crud_read (token_query token) ;;
     match tokens with
     | [] =>
         raise (ContactsException INVALID_TOKEN "Invalid or expired token")
     | token_data :: _ =>
         let target_user_id := tk_user_id token_data in
         if String.eqb user_id target_user_id then
           raise (ContactsException SELF_CONNECTION
                    "Cannot connect with yourself")
         else
           let expires_at := tk_expires_at token_data in
           if (expires_at <? now)%Z then
             nfc_crud_update (tk_id token_data) set_inactive ;;;
             raise (ContactsException EXPIRED_TOKEN "Token has expired")
           else
             existing_connection <-
               connections_crud_read
                 (connection_query user_id target_user_id) ;;
             if negb (is_empty existing_connection) then
               raise (ContactsException CONNECTION_EXISTS
                        "Connection already exists")
             else
               new_connection <-
                 connections_crud_create
                   (fun id =>
                      mkConnection id user_id target_user_id
                        (tk_profile_type token_data)) ;;
               nfc_crud_update (tk_id token_data) set_inactive ;;;
               profile <-
                 profile_crud_read
                   (profile_query target_user_id
                      (tk_profile_type token_data)) ;;
               ret (mkConnectResponse "Connection created successfully"
                      new_connection (hd_error profile))
     end).

(** ** Vocabulary of the statements *)

(** The handler ended with [ContactsException(error_code=c, ...)]. *)
Definition fails_with {A : Type} (r : Result A) (c : ErrorCode) : Prop :=
  exists m, r = Raise (ContactsException c m).

Definition succeeds {A : Type} (r : Result A) : Prop :=
  exists a, r = Ok a.

(** The rows an [{"token": v, "is_active": True}] lookup returns. *)
Definition lookup_token (v : string) (s : Store) : list NFCToken :=
  SupabaseCRUD.read (token_query v) (nfc_tokens s).

(** The store after [nfc_crud.update("id", id, {"is_active": False})]. *)
Definition deactivated (id : nat) (s : Store) : Store :=
  with_nfc_tokens (SupabaseCRUD.update tk_id id set_inactive (nfc_tokens s)) s.

(** No row carrying identifier [id] is active. *)
Definition inactive_in (id : nat) (s : Store) : Prop :=
  forall t, In t (nfc_tokens s) -> tk_id t = id -> tk_is_active t = false.

Definition has_profile (user_id : string) (ty : ProfileType) (s : Store)
    : Prop :=
  SupabaseCRUD.read (profile_query user_id ty) (profiles s) <> [].

Definition connected (user_id target : string) (s : Store) : Prop :=
  exists c, In c (connections s)
            /\ cn_user_id c = user_id /\ cn_connected_user_id c = target.

(** The data model's requirement that [token_value] is unique across all
    tokens. *)
Definition token_values_unique (s : Store) : Prop :=
  NoDup (map tk_token (nfc_tokens s)).

(** The active tokens of an [(owner_id, profile_type)] pair. *)
Definition active_tokens (owner : string) (ty : ProfileType) (s : Store)
    : list NFCToken :=
  SupabaseCRUD.read (active_tokens_query owner ty) (nfc_tokens s).

(** A sequence of issuance requests for one pair, each with its own instant
    and random draws, served one after the other. *)
Fixpoint issue_all (owner : string) (ty : ProfileType)
    (calls : list (datetime * (nat -> nat))) (s : Store) : Store :=
  match calls with
  | [] => s
  | (now, rnd) :: calls' =>
      issue_all owner ty calls' (fst (generate_nfc_token owner ty now rnd s))
  end.

Definition is_ascii_letter (c : ascii) : bool :=
  let n := nat_of_ascii c in
  ((97 <=? n) && (n <=? 122) || (65 <=? n) && (n <=? 90))%nat.

Definition is_digit (c : ascii) : bool :=
  let n := nat_of_ascii c in ((48 <=? n) && (n <=? 57))%nat.

Definition is_alnum (c : ascii) : bool := is_ascii_letter c || is_digit c.

(** The supersession loop of [generate_nfc_token]. *)
Definition deactivate_each (xs : list NFCToken) (s : Store) : Store :=
  fold_left (fun st x => deactivated (tk_id x) st) xs s.

(** ** Concrete stores *)

Module Scenario.
(** [U1] has a family profile and one active family token [T1] that
    expires at instant 1000. *)
Definition T1_row : NFCToken := mkNFCToken 1 "U1" "T1" family true 1000%Z.

Definition U1_family : Profile := mkProfile 7 "U1" family "card of U1".

Definition issued : Store := mkStore [T1_row] [] [U1_family] 8.

(** The same store after [U1] deleted the family profile. *)
Definition orphaned : Store := mkStore [T1_row] [] [] 8.

(** [T1] was superseded or redeemed. *)
Definition spent : Store := mkStore [set_inactive T1_row] [] [U1_family] 8.

(** [U2] is already connected to [U1], through the work profile. *)
Definition U2_to_U1 : Connection := mkConnection 3 "U2" "U1" work.

Definition linked : Store := mkStore [T1_row] [U2_to_U1] [U1_family] 8.

Definition draws : nat -> nat := fun i => 7 * i + 3.
End Scenario.

(** ** Sequences of requests to the NFC router *)

Inductive Request : Type :=
| GenerateRequest (user_id : string) (token_data : ProfileType)
    (now : datetime) (rnd : nat -> nat)
| ValidateRequest (token : string) (now : datetime)
| ConnectRequest (token : string) (user_id : string) (now : datetime).

(** The store a request leaves behind, whether it is answered or refused. *)
Definition serve (r : Request) (s : Store) : Store :=
  match r with
  | GenerateRequest user_id token_data now rnd =>
      fst (generate_nfc_token user_id token_data now rnd s)
  | ValidateRequest token now => fst (validate_nfc_token token now s)
  | ConnectRequest token user_id now =>
      fst (connect_via_nfc token user_id now s)
  end.

Definition serve_all (rs : list Request) (s : Store) : Store :=
  fold_left (fun st r => serve r st) rs s.

(** A token row is kept as it was, or with [is_active] cleared. *)
Definition token_kept (t t' : NFCToken) : Prop :=
  t' = t \/ t' = set_inactive t.

(** Every row of [ts] is kept in place; rows may be appended. *)
Definition tokens_extend (ts ts' : list NFCToken) : Prop :=
  exists kept added, ts' = kept ++ added /\ Forall2 token_kept ts kept.

Definition connection_pair (c : Connection) : string * string :=
  (cn_user_id c, cn_connected_user_id c).

Definition connection_pairs_unique (s : Store) : Prop :=
  NoDup (map connection_pair (connections s)).

Definition no_self_connection (s : Store) : Prop :=
  forall c, In c (connections s) -> cn_user_id c <> cn_connected_user_id c.

(** [id] is the primary key of [nfc_tokens]. *)
Definition token_ids_unique (s : Store) : Prop :=
  NoDup (map tk_id (nfc_tokens s)).

(** The rows the supersession loop touches: those whose [id] is the [id] of
    one of [xs]. *)
Definition superseded_by (xs : list NFCToken) (t : NFCToken) : bool :=
  existsb (Nat.eqb (tk_id t)) (map tk_id xs).

(** [U1] has a family and a work profile, an active token for each, and
    [U2] has a friends profile and is connected to [U1] through the work
    profile. *)
Module Household.
Definition T1_row : NFCToken := mkNFCToken 1 "U1" "T1" family true 1000%Z.

Definition W1_row : NFCToken := mkNFCToken 2 "U1" "W1" work true 1000%Z.

Definition U1_family : Profile := mkProfile 7 "U1" family "card of U1".

Definition U1_work : Profile := mkProfile 9 "U1" work "desk of U1".

Definition U2_friends : Profile := mkProfile 11 "U2" friends "U2 at large".

Definition U2_to_U1 : Connection := mkConnection 3 "U2" "U1" work.

Definition store : Store :=
  mkStore [T1_row; W1_row] [U2_to_U1] [U1_family; U1_work; U2_friends] 12.
End Household.

(** ** Profiles and accounts ([app/api/profiles.py], [app/api/users.py]) *)

(** A row of one of the type-specific tables [family_profiles],
    [friends_profiles], [work_profiles], [acquaintances_profiles]: its key
    and the profile it details.  The detail columns are opaque here, as the
    attributes of a [Profile] are. *)
Record ProfileDetails : Type := mkProfileDetails {
  pd_id : nat;
  pd_profile_id : nat;
  pd_data : string
}.

(** The store of the NFC module together with the type-specific tables. *)
Record Database : Type := mkDatabase {
  db_store : Store;
  family_profiles : list ProfileDetails;
  friends_profiles : list ProfileDetails;
  work_profiles : list ProfileDetails;
  acquaintances_profiles : list ProfileDetails
}.

(** What these handlers raise: a [ContactsException], whose [error_code] is
    a free string, or any other Python exception, with its [str]. *)
Inductive HTTPError : Type :=
| ContactsError (error_code : string) (message : string)
| OtherError (message : string).

Inductive Outcome (A : Type) : Type :=
| Returned (a : A)
| Raised (e : HTTPError).

Arguments Returned {A} a.
Arguments Raised {A} e.

Definition Handler (A : Type) : Type := Database -> Database * Outcome A.

Definition h_ret {A : Type} (a : A) : Handler A := fun db => (db, Returned a).

Definition h_raise {A : Type} (e : HTTPError) : Handler A :=
  fun db => (db, Raised e).

Definition h_bind {A B : Type} (m : Handler A) (k : A -> Handler B)
    : Handler B :=
  fun db =>
    match m db with
    | (db', Returned a) => k a db'
    | (db', Raised e) => (db', Raised e)
    end.

(** [try: body except ...: raise handler(e)] *)
Definition h_except {A : Type} (handler : HTTPError -> HTTPError)
    (body : Handler A) : Handler A :=
  fun db =>
    match body db with
    | (db', Returned a) => (db', Returned a)
    | (db', Raised e) => (db', Raised (handler e))
    end.

Declare Scope handler_scope.
Delimit Scope handler_scope with handler.
Bind Scope handler_scope with Handler.

Notation "x <- m ;; k" := (h_bind m (fun x => k))
  (at level 61, m at next level, right associativity) : handler_scope.
Notation "m ;;; k" := (h_bind m (fun _ => k))
  (at level 61, right associativity) : handler_scope.

(** [[await f(x) for x in xs]] *)
Fixpoint h_map {A B : Type} (f : A -> Handler B) (xs : list A)
    : Handler (list B) :=
  match xs with
  | [] => h_ret []
  | x :: xs' => (y <- f x ;; ys <- h_map f xs' ;; h_ret (y :: ys))%handler
  end.

(** [for x in xs: await body(x)] *)
Fixpoint h_for {A : Type} (xs : list A) (body : A -> Handler unit)
    : Handler unit :=
  match xs with
  | [] => h_ret tt
  | x :: xs' => (body x ;;; h_for xs' body)%handler
  end.

(** [except ContactsException: raise
     except Exception as e: raise ContactsException(error_code, str(e))] *)
Definition reraise_or_wrap (error_code : string) (e : HTTPError) : HTTPError :=
  match e with
  | ContactsError c m => ContactsError c m
  | OtherError m => ContactsError error_code m
  end.

(** [except ContactsException: raise
     except Exception: raise ContactsException(error_code, message)] *)
Definition reraise_or_replace (error_code message : string) (e : HTTPError)
    : HTTPError :=
  match e with
  | ContactsError c m => ContactsError c m
  | OtherError _ => ContactsError error_code message
  end.

(** A table of the database, as a [SupabaseCRUD(table_name)] object sees
    it. *)
Record Table (R : Type) : Type := mkTable {
  rows : Database -> list R;
  set_rows : list R -> Database -> Database
}.

Arguments mkTable {R} _ _.
Arguments rows {R} _ _.
Arguments set_rows {R} _ _ _.

Definition with_profiles (ps : list Profile) (s : Store) : Store :=
  mkStore (nfc_tokens s) (connections s) ps (next_id s).

Definition with_store (f : Store -> Store) (db : Database) : Database :=
  mkDatabase (f (db_store db)) (family_profiles db) (friends_profiles db)
    (work_profiles db) (acquaintances_profiles db).

Definition profile_crud : Table Profile :=
  mkTable (fun db => profiles (db_store db))
    (fun ps => with_store (with_profiles ps)).

Definition connections_crud : Table Connection :=
  mkTable (fun db => connections (db_store db))
    (fun cs => with_store (with_connections cs)).

Definition nfc_crud : Table NFCToken :=
  mkTable (fun db => nfc_tokens (db_store db))
    (fun ts => with_store (with_nfc_tokens ts)).

Definition family_profile_crud : Table ProfileDetails :=
  mkTable family_profiles
    (fun rs db =>
       mkDatabase (db_store db) rs (friends_profiles db) (work_profiles db)
         (acquaintances_profiles db)).

Definition friends_profile_crud : Table ProfileDetails :=
  mkTable friends_profiles
    (fun rs db =>
       mkDatabase (db_store db) (family_profiles db) rs (work_profiles db)
         (acquaintances_profiles db)).

Definition work_profile_crud : Table ProfileDetails :=
  mkTable work_profiles
    (fun rs db =>
       mkDatabase (db_store db) (family_profiles db) (friends_profiles db) rs
         (acquaintances_profiles db)).

Definition acquaintances_profile_crud : Table ProfileDetails :=
  mkTable acquaintances_profiles
    (fun rs db =>
       mkDatabase (db_store db) (family_profiles db) (friends_profiles db)
         (work_profiles db) rs).

(** [.eq(column, value)] on an identifier column and on a text column *)
Definition eq_id {R : Type} (column : R -> nat) (value : nat) : R -> bool :=
  fun r => Nat.eqb (column r) value.

Definition eq_text {R : Type} (column : R -> string) (value : string)
    : R -> bool :=
  fun r => String.eqb (column r) value.

(** The methods of [SupabaseCRUD] ([app/core/crud.py]) the handlers below
    call.  A delete answers with the rows it removed. *)
Module CRUD.
Section Methods.
Context {R : Type} (self : Table R).

Definition read (query : R -> bool) : Handler (list R) :=
  fun db => (db, Returned (filter query (rows self db))).

(** [response.data[0] if response.data else None] *)
Definition get_by_id (matches : R -> bool) : Handler (option R) :=
  fun db => (db, Returned (hd_error (filter matches (rows self db)))).

(** [insert(data)]: the store fills in the identifier, taken from the
    counter of the store; [response.data[0] if response.data else None]. *)
Definition create (data : nat -> R) : Handler (option R) :=
  fun db =>
    let id := next_id (db_store db) in
    (with_store bump_next_id (set_rows self (rows self db ++ [data id]) db),
     Returned (Some (data id))).

(** [return len(response.data) > 0] *)
Definition delete (matches : R -> bool) : Handler bool :=
  fun db =>
    let data := filter matches (rows self db) in
    (set_rows self (filter (fun r => negb (matches r)) (rows self db)) db,
     Returned (Nat.ltb 0 (List.length data))).

(** [return len(response.data) >= 0] *)
Definition delete_many (matches : R -> bool) : Handler bool :=
  fun db =>
    let data := filter matches (rows self db) in
    (set_rows self (filter (fun r => negb (matches r)) (rows self db)) db,
     Returned (Nat.leb 0 (List.length data))).
End Methods.
End CRUD.

(** A profile as [get_enriched_profile] and [get_connection_profiles] hand
    it out: the merge of the base row, the detail row ([None] for the empty
    dict) and the keys [is_own], [connection_id], [connection_type]. *)
Record ProfileView : Type := mkProfileView {
  pv_profile : Profile;
  pv_details : option ProfileDetails;
  pv_is_own : bool;
  pv_connection_id : option nat;
  pv_connection_type : option ProfileType
}.

(** The four handlers [create_family_profile], [create_friends_profile],
    [create_work_profile] and [create_acquaintance_profile] are one text
    that differs in the profile type, the detail table and the message.
    [base] stands for the columns [name] and [photo] of the base row,
    [details] for the columns of the detail row.  The answer is the merge
    of the two rows created. *)
Definition create_typed_profile (ty : ProfileType)
    (detail_crud : Table ProfileDetails) (exists_message : string)
    (base details : string) (user_id : string)
    : Handler (Profile * ProfileDetails) :=
  h_except (reraise_or_wrap "PROFILE_CREATION_FAILED")
    (existing_profiles <- CRUD.read profile_crud (profile_query user_id ty) ;;
     if negb (is_empty existing_profiles) then
       h_raise (ContactsError "PROFILE_EXISTS" exists_message)
     else
       base_profile <-
         CRUD.create profile_crud (fun id => mkProfile id user_id ty base) ;;
       match base_profile with
       | None => h_raise (OtherError "'NoneType' object is not subscriptable")
       | Some base_profile =>
           detail_profile <-
             CRUD.create detail_crud
               (fun id => mkProfileDetails id (pf_id base_profile) details) ;;
           match detail_profile with
           | None => h_raise (OtherError "'NoneType' object is not a mapping")
           | Some detail_profile => h_ret (base_profile, detail_profile)
           end
       end)%handler.

Definition create_family_profile :
    string -> string -> string -> Handler (Profile * ProfileDetails) :=
  create_typed_profile family family_profile_crud
    "Family profile already exists".

Definition create_friends_profile :
    string -> string -> string -> Handler (Profile * ProfileDetails) :=
  create_typed_profile friends friends_profile_crud
    "Friends profile already exists".

Definition create_work_profile :
    string -> string -> string -> Handler (Profile * ProfileDetails) :=
  create_typed_profile work work_profile_crud "Work profile already exists".

Definition create_acquaintance_profile :
    string -> string -> string -> Handler (Profile * ProfileDetails) :=
  create_typed_profile acquaintances acquaintances_profile_crud
    "Acquaintance profile already exists".

(** The handler that creates a profile of a given type. *)
Definition create_profile (ty : ProfileType)
    : string -> string -> string -> Handler (Profile * ProfileDetails) :=
  match ty with
  | family => create_family_profile
  | friends => create_friends_profile
  | work => create_work_profile
  | acquaintances => create_acquaintance_profile
  end.

(** The chain of comparisons with the four [ProfileType] values; its final
    [return {}] needs a type outside the four and has no counterpart here.
    [get_by_id(...) or {}] turns a missing row into the empty dict, which
    is [None] here. *)
Definition get_type_specific_details (profile_type : ProfileType)
    (profile_id : nat) : Handler (option ProfileDetails) :=
  match profile_type with
  | family =>
      CRUD.get_by_id family_profile_crud (eq_id pd_profile_id profile_id)
  | friends =>
      CRUD.get_by_id friends_profile_crud (eq_id pd_profile_id profile_id)
  | work =>
      CRUD.get_by_id work_profile_crud (eq_id pd_profile_id profile_id)
  | acquaintances =>
      CRUD.get_by_id acquaintances_profile_crud
        (eq_id pd_profile_id profile_id)
  end.

Definition get_enriched_profile (profile : Profile) (user_id : string)
    : Handler ProfileView :=
  (details <- get_type_specific_details (pf_type profile) (pf_id profile) ;;
   h_ret (mkProfileView profile details
            (String.eqb (pf_user_id profile) user_id) None None))%handler.

Definition get_user_profiles (user_id : string) : Handler (list ProfileView) :=
  (profiles <- CRUD.read profile_crud (eq_text pf_user_id user_id) ;;
   h_map (fun profile => get_enriched_profile profile user_id)
     profiles)%handler.

(** The inner loop of [get_connection_profiles]; [result] is the list the
    loop appends to. *)
Fixpoint for_connected_profiles (connection : Connection) (user_id : string)
    (connected_profiles : list Profile) (result : list ProfileView)
    : Handler (list ProfileView) :=
  match connected_profiles with
  | [] => h_ret result
  | profile :: rest =>
      (detailed_profile <- get_enriched_profile profile user_id ;;
       for_connected_profiles connection user_id rest
         (result
          ++ [mkProfileView (pv_profile detailed_profile)
                (pv_details detailed_profile) false
                (Some (cn_id connection))
                (Some (cn_connection_type connection))]))%handler
  end.

(** The outer loop of [get_connection_profiles]. *)
Fixpoint for_connections (user_id : string) (connections : list Connection)
    (result : list ProfileView) : Handler (list ProfileView) :=
  match connections with
  | [] => h_ret result
  | connection :: rest =>
      (connected_profiles <-
         CRUD.read profile_crud
           (eq_text pf_user_id (cn_connected_user_id connection)) ;;
       result' <-
         for_connected_profiles connection user_id connected_profiles
           result ;;
       for_connections user_id rest result')%handler
  end.

Definition get_connection_profiles (user_id : string)
    : Handler (list ProfileView) :=
  (connections <- CRUD.read connections_crud (eq_text cn_user_id user_id) ;;
   for_connections user_id connections [])%handler.

(** [DELETE]-side helper, the same in [profiles.py] and, as a local
    function, in [delete_user_account]. *)
Definition delete_profile_by_type (profile_type : ProfileType)
    (profile_id : nat) : Handler unit :=
  match profile_type with
  | family =>
      (CRUD.delete family_profile_crud (eq_id pd_profile_id profile_id) ;;;
       h_ret tt)%handler
  | friends =>
      (CRUD.delete friends_profile_crud (eq_id pd_profile_id profile_id) ;;;
       h_ret tt)%handler
  | work =>
      (CRUD.delete work_profile_crud (eq_id pd_profile_id profile_id) ;;;
       h_ret tt)%handler
  | acquaintances =>
      (CRUD.delete acquaintances_profile_crud
         (eq_id pd_profile_id profile_id) ;;;
       h_ret tt)%handler
  end.

(** [GET /{profile_id}] for the authenticated [user_id]; the answer is the
    merge of the base row and the detail row.  Here [get_by_id] is not
    followed by [or {}]: merging a missing detail row raises a
    [TypeError]. *)
Definition get_profile (profile_id : nat) (user_id : string)
    : Handler (Profile * ProfileDetails) :=
  h_except
    (reraise_or_replace "PROFILE_RETRIEVAL_FAILED" "Failed to retrieve profile")
    (profile <- CRUD.get_by_id profile_crud (eq_id pf_id profile_id) ;;
     match profile with
     | None =>
         h_raise (ContactsError "PROFILE_NOT_FOUND" "Profile not found")
     | Some profile =>
         if negb (String.eqb (pf_user_id profile) user_id) then
           h_raise (ContactsError "UNAUTHORIZED"
                      "Not authorized to access this profile")
         else
           details <-
             match pf_type profile with
             | family =>
                 CRUD.get_by_id family_profile_crud
                   (eq_id pd_profile_id profile_id)
             | friends =>
                 CRUD.get_by_id friends_profile_crud
                   (eq_id pd_profile_id profile_id)
             | work =>
                 CRUD.get_by_id work_profile_crud
                   (eq_id pd_profile_id profile_id)
             | acquaintances =>
                 CRUD.get_by_id acquaintances_profile_crud
                   (eq_id pd_profile_id profile_id)
             end ;;
           match details with
           | None => h_raise (OtherError "'NoneType' object is not a mapping")
           | Some details => h_ret (profile, details)
           end
     end)%handler.

(** [DELETE /{profile_id}] for the authenticated [user_id]. *)
Definition delete_profile (profile_id : nat) (user_id : string)
    : Handler string :=
  h_except (reraise_or_wrap "PROFILE_DELETE_FAILED")
    (existing_profile <- CRUD.get_by_id profile_crud (eq_id pf_id profile_id) ;;
     match existing_profile with
     | None =>
         h_raise (ContactsError "PROFILE_NOT_FOUND" "Profile not found")
     | Some existing_profile =>
         if negb (String.eqb (pf_user_id existing_profile) user_id) then
           h_raise (ContactsError "UNAUTHORIZED"
                      "Not authorized to delete this profile")
         else
           delete_profile_by_type (pf_type existing_profile) profile_id ;;;
           deleted <- CRUD.delete profile_crud (eq_id pf_id profile_id) ;;
           if negb deleted then
             h_raise (ContactsError "PROFILE_DELETE_FAILED"
                        "Failed to delete profile")
           else h_ret "Profile deleted successfully"
     end)%handler.

(** A call to the identity provider: it returns, or raises with a
    message. *)
Definition external_call (raised : option string) : Handler unit :=
  match raised with
  | None => h_ret tt
  | Some message => h_raise (OtherError message)
  end.

(** The registration form and the user the identity provider answers
    with. *)
Record UserRegistration : Type := mkUserRegistration {
  ur_email : string;
  ur_password : string;
  ur_phone : option string;
  ur_full_name : option string
}.

Record AuthUser : Type := mkAuthUser {
  au_id : string;
  au_email : string;
  au_phone : option string;
  au_user_metadata : string
}.

Section Handlers.
(** [str(e)] of a [ContactsException], which the web framework defines. *)
Variable http_exception_str : string -> string -> string.

Definition error_str (e : HTTPError) : string :=
  match e with
  | ContactsError c m => http_exception_str c m
  | OtherError m => m
  end.

(** [GET /] for the authenticated [user_id]. *)
Definition list_profiles (include_connections : bool) (user_id : string)
    : Handler (list ProfileView) :=
  h_except
    (fun e =>
       ContactsError "PROFILE_RETRIEVAL_FAILED"
         ("Failed to retrieve profiles: " ++ error_str e)%string)
    (detailed_profiles <- get_user_profiles user_id ;;
     if include_connections then
       connection_profiles <- get_connection_profiles user_id ;;
       h_ret (detailed_profiles ++ connection_profiles)
     else h_ret detailed_profiles)%handler.

(** [DELETE /profile] of [users.py] for the authenticated [user_id];
    [admin_delete_user] is the outcome of the identity provider's
    [auth.admin.delete_user]. *)
Definition delete_user_account (admin_delete_user : string -> option string)
    (user_id : string) : Handler string :=
  h_except
    (fun e =>
       ContactsError "ACCOUNT_DELETION_FAILED"
         ("Failed to delete account: " ++ error_str e)%string)
    (profiles <- CRUD.read profile_crud (eq_text pf_user_id user_id) ;;
     h_for profiles
       (fun profile =>
          delete_profile_by_type (pf_type profile) (pf_id profile) ;;;
          CRUD.delete profile_crud (eq_id pf_id (pf_id profile)) ;;;
          h_ret tt) ;;;
     CRUD.delete_many connections_crud (eq_text cn_user_id user_id) ;;;
     CRUD.delete_many connections_crud
       (eq_text cn_connected_user_id user_id) ;;;
     CRUD.delete_many nfc_crud (eq_text tk_user_id user_id) ;;;
     external_call (admin_delete_user user_id) ;;;
     h_ret "User account and all associated data deleted successfully"
    )%handler.

(** [POST /register] of [users.py]; [sign_up] is the identity provider's
    [auth.sign_up], which returns a user or raises with a message.  The
    handler does not touch the database. *)
Definition register_user (sign_up : UserRegistration -> AuthUser + string)
    (user_data : UserRegistration) : Outcome AuthUser :=
  let body : Outcome AuthUser :=
    if (String.length (ur_password user_data) =? 0)%nat
       || (String.length (ur_password user_data) <? 8)%nat
    then
      Raised (ContactsError "INVALID_PASSWORD"
                "Password must be at least 8 characters long")
    else
      match sign_up user_data with
      | inl user => Returned user
      | inr message => Raised (OtherError message)
      end in
  match body with
  | Returned user => Returned user
  | Raised e => Raised (ContactsError "REGISTRATION_FAILED" (error_str e))
  end.
End Handlers.

(** A database over the household store: [U1]'s family profile has its
    detail row, the work profile has none. *)
Module Home.
Definition U1_family_details : ProfileDetails :=
  mkProfileDetails 21 7 "phone of U1".

Definition U2_friends_details : ProfileDetails :=
  mkProfileDetails 22 11 "instagram of U2".

Definition db : Database :=
  mkDatabase Household.store [U1_family_details] [U2_friends_details] [] [].

Definition http_str (error_code message : string) : string :=
  ("400: " ++ error_code ++ " " ++ message)%string.
End Home.

(** The handler ended with [ContactsException(error_code=code, ...)]. *)
Definition h_fails_with {A : Type} (r : Outcome A) (code : string) : Prop :=
  exists m, r = Raised (ContactsError code m).

(** The type-specific table of a profile type. *)
Definition detail_rows (ty : ProfileType) (db : Database)
    : list ProfileDetails :=
  match ty with
  | family => family_profiles db
  | friends => friends_profiles db
  | work => work_profiles db
  | acquaintances => acquaintances_profiles db
  end.

(** The first detail row of a profile, if it has one. *)
Definition details_of (p : Profile) (db : Database) : option ProfileDetails :=
  hd_error (filter (eq_id pd_profile_id (pf_id p)) (detail_rows (pf_type p) db)).

(** A profile as its owner [user_id] sees it listed. *)
Definition own_view (db : Database) (user_id : string) (p : Profile)
    : ProfileView :=
  mkProfileView p (details_of p db) (String.eqb (pf_user_id p) user_id)
    None None.

(** A profile as the holder of connection [c] sees it listed. *)
Definition connection_view (db : Database) (c : Connection) (p : Profile)
    : ProfileView :=
  mkProfileView p (details_of p db) false (Some (cn_id c))
    (Some (cn_connection_type c)).

(** The profiles of a user, in table order. *)
Definition profiles_of (user_id : string) (db : Database) : list Profile :=
  filter (eq_text pf_user_id user_id) (profiles (db_store db)).

(** No user has two profiles of one type. *)
Definition one_profile_per_type (db : Database) : Prop :=
  forall u ty,
    List.length
      (SupabaseCRUD.read (profile_query u ty) (profiles (db_store db))) <= 1.

(** The identifiers in use lie below the counter of the store: those of the
    profiles and those the detail rows refer to. *)
Definition profile_ids_below_counter (db : Database) : Prop :=
  (forall q, In q (profiles (db_store db)) -> pf_id q < next_id (db_store db))
  /\ forall ty d, In d (detail_rows ty db) ->
                  pd_profile_id d < next_id (db_store db).

(** [id] is the primary key of [profiles]. *)
Definition profile_ids_unique (db : Database) : Prop :=
  NoDup (map pf_id (profiles (db_store db))).

(** The database after the two deletes that erase one profile: the detail
    rows of its type, then the base rows, both by the profile's [id]. *)
Definition erase_profile (ty : ProfileType) (id : nat) (db : Database)
    : Database :=
  fst (CRUD.delete profile_crud (eq_id pf_id id)
         (fst (delete_profile_by_type ty id db))).

(** The database after the profile loop of [delete_user_account]. *)
Definition erase_profiles (ps : list Profile) (db : Database) : Database :=
  fold_left (fun d p => erase_profile (pf_type p) (pf_id p) d) ps db.

(** The database after every delete of [delete_user_account]. *)
Definition erased_account (user_id : string) (db : Database) : Database :=
  fst (CRUD.delete_many nfc_crud (eq_text tk_user_id user_id)
         (fst (CRUD.delete_many connections_crud
                 (eq_text cn_connected_user_id user_id)
                 (fst (CRUD.delete_many connections_crud
                         (eq_text cn_user_id user_id)
                         (erase_profiles (profiles_of user_id db) db)))))).

(** ** Settings ([app/core/config.py]) *)

(** [str.isspace] on one character.  A character is read as a code point
    below 256; the white space among these is tab to carriage return, the
    four separators 28 to 31, the space, NEL and the no-break space. *)
Definition isspace (c : ascii) : bool :=
  let n := nat_of_ascii c in
  ((9 <=? n) && (n <=? 13) || (28 <=? n) && (n <=? 32)
   || (n =? 133) || (n =? 160))%nat.

(** [str.split(sep)] for a separator of one character *)
Fixpoint split (sep : ascii) (s : string) : list string :=
  match s with
  | EmptyString => [EmptyString]
  | String c rest =>
      if Ascii.eqb c sep then EmptyString :: split sep rest
      else
        match split sep rest with
        | [] => [String c EmptyString]
        | piece :: pieces => String c piece :: pieces
        end
  end.

(** [str.lstrip()], [str.rstrip()] and [str.strip()] *)
Fixpoint lstrip (s : string) : string :=
  match s with
  | EmptyString => EmptyString
  | String c rest => if isspace c then lstrip rest else s
  end.

Fixpoint rstrip (s : string) : string :=
  match s with
  | EmptyString => EmptyString
  | String c rest =>
      match rstrip rest with
      | EmptyString => if isspace c then EmptyString else String c EmptyString
      | kept => String c kept
      end
  end.

Definition strip (s : string) : string := lstrip (rstrip s).

(** [Settings.allowed_origins_list], from the value of [ALLOWED_ORIGINS] *)
Definition allowed_origins_list (ALLOWED_ORIGINS : string) : list string :=
  map strip (split "," ALLOWED_ORIGINS).

(** [str.count(c)] for one character *)
Fixpoint count_char (c : ascii) (s : string) : nat :=
  match s with
  | EmptyString => 0
  | String d rest => (if Ascii.eqb d c then 1 else 0) + count_char c rest
  end.

Definition starts_with_space (s : string) : bool :=
  match s with
  | EmptyString => false
  | String c _ => isspace c
  end.

Fixpoint ends_with_space (s : string) : bool :=
  match s with
  | EmptyString => false
  | String c EmptyString => isspace c
  | String _ rest => ends_with_space rest
  end.

(** ** The handlers, case by case *)

Lemma ProfileType_eqb_eq a b : ProfileType_eqb a b = true <-> a = b.
Proof. destruct a, b; simpl; split; intro H; congruence. Qed.

Lemma ProfileType_eqb_refl a : ProfileType_eqb a a = true.
Proof. now destruct a. Qed.

Lemma connect_via_nfc_eq token user_id now s :
  connect_via_nfc token user_id now s =
  match lookup_token token s with
  | [] => (s, Raise (ContactsException INVALID_TOKEN "Invalid or expired token"))
  | td :: _ =>
      if String.eqb user_id (tk_user_id td) then
        (s, Raise (ContactsException SELF_CONNECTION
                     "Cannot connect with yourself"))
      else if (tk_expires_at td <? now)%Z then
        (deactivated (tk_id td) s,
         Raise (ContactsException EXPIRED_TOKEN "Token has expired"))
      else
        match SupabaseCRUD.read (connection_query user_id (tk_user_id td))
                (connections s) with
        | _ :: _ =>
            (s, Raise (ContactsException CONNECTION_EXISTS
                         "Connection already exists"))
        | [] =>
            let c := mkConnection (next_id s) user_id (tk_user_id td)
                       (tk_profile_type td) in
            (deactivated (tk_id td)
               (bump_next_id (with_connections (connections s ++ [c]) s)),
             Ok (mkConnectResponse "Connection created successfully" (Some c)
                   (hd_error
                      (SupabaseCRUD.read
                         (profile_query (tk_user_id td) (tk_profile_type td))
                         (profiles s)))))
        end
  end.
Proof.
  unfold connect_via_nfc, try_except, bind, nfc_crud_read, lookup_token.
  destruct (SupabaseCRUD.read (token_query token) (nfc_tokens s)) as [|td rest];
    [reflexivity|].
  destruct (String.eqb user_id (tk_user_id td)); [reflexivity|].
  destruct (tk_expires_at td <? now)%Z; [reflexivity|].
  unfold connections_crud_read.
  destruct (SupabaseCRUD.read _ (connections s)); reflexivity.
Qed.

Lemma validate_nfc_token_eq token now s :
  validate_nfc_token token now s =
  match lookup_token token s with
  | [] => (s, Raise (ContactsException INVALID_TOKEN "Invalid or expired token"))
  | td :: _ =>
      if (tk_expires_at td <? now)%Z then
        (deactivated (tk_id td) s,
         Raise (ContactsException EXPIRED_TOKEN "Token has expired"))
      else
        match SupabaseCRUD.read
                (profile_query (tk_user_id td) (tk_profile_type td))
                (profiles s) with
        | [] =>
            (s, Raise (ContactsException PROFILE_NOT_FOUND
                         "Associated profile not found"))
        | p :: _ => (s, Ok (mkValidateResponse p (tk_user_id td)))
        end
  end.
Proof.
  unfold validate_nfc_token, try_except, bind, nfc_crud_read, lookup_token.
  destruct (SupabaseCRUD.read (token_query token) (nfc_tokens s)) as [|td rest];
    [reflexivity|].
  destruct (tk_expires_at td <? now)%Z; [reflexivity|].
  unfold profile_crud_read.
  destruct (SupabaseCRUD.read _ (profiles s)); reflexivity.
Qed.

Lemma for_each_deactivate xs s :
  for_each xs (fun t => nfc_crud_update (tk_id t) set_inactive) s
  = (deactivate_each xs s, Ok tt).
Proof.
  revert s. induction xs as [|x xs IH]; intro s; [reflexivity|].
  simpl. unfold bind at 1. unfold nfc_crud_update at 1. apply IH.
Qed.

Lemma generate_nfc_token_eq user_id ty now rnd s :
  generate_nfc_token user_id ty now rnd s =
  match SupabaseCRUD.read (profile_query user_id ty) (profiles s) with
  | [] =>
      (s, Raise (ContactsException PROFILE_NOT_FOUND
                   ("Profile of type '" ++ ProfileType_str ty
                    ++ "' not found")%string))
  | _ :: _ =>
      let expires_at := (now + timedelta_minutes NFC_TOKEN_EXPIRE_MINUTES)%Z in
      let token := generate_token 32 rnd in
      let s1 := deactivate_each (active_tokens user_id ty s) s in
      (bump_next_id
         (with_nfc_tokens
            (nfc_tokens s1
             ++ [mkNFCToken (next_id s1) user_id token ty true expires_at])
            s1),
       Ok (mkNFCTokenResponse token ty expires_at))
  end.
Proof.
  unfold generate_nfc_token, try_except, bind at 1, profile_crud_read.
  destruct (SupabaseCRUD.read (profile_query user_id ty) (profiles s));
    [reflexivity|].
  cbv beta iota delta [is_empty].
  unfold bind, nfc_crud_read. rewrite for_each_deactivate.
  reflexivity.
Qed.

Lemma deactivate_each_frame xs s :
  connections (deactivate_each xs s) = connections s
  /\ profiles (deactivate_each xs s) = profiles s
  /\ next_id (deactivate_each xs s) = next_id s.
Proof.
  revert s. induction xs as [|x xs IH]; intro s; simpl; [auto|].
  destruct (IH (deactivated (tk_id x) s)) as (Hc & Hp & Hn).
  rewrite Hc, Hp, Hn. auto.
Qed.

Lemma active_tokens_query_set_inactive owner ty t :
  active_tokens_query owner ty (set_inactive t) = false.
Proof.
  unfold active_tokens_query, set_inactive. simpl.
  now rewrite andb_false_r.
Qed.

Lemma token_query_set_inactive v t : token_query v (set_inactive t) = false.
Proof.
  unfold token_query, set_inactive. simpl. now rewrite andb_false_r.
Qed.

(** Deactivating rows only removes rows from the answer of a query that
    asks for [is_active = True]. *)
Lemma deactivate_each_clears owner ty xs s :
  (forall t, In t (nfc_tokens s) -> active_tokens_query owner ty t = true ->
             In (tk_id t) (map tk_id xs)) ->
  active_tokens owner ty (deactivate_each xs s) = [].
Proof.
  unfold active_tokens, SupabaseCRUD.read.
  revert s. induction xs as [|x xs IH]; intros s H; simpl.
  - induction (nfc_tokens s) as [|t ts IHts]; [reflexivity|].
    simpl. destruct (active_tokens_query owner ty t) eqn:Q.
    + destruct (H t (or_introl eq_refl) Q).
    + apply IHts. intros u Hu. apply H. now right.
  - apply IH. intros t Ht Q.
    unfold deactivated, with_nfc_tokens, SupabaseCRUD.update in Ht.
    simpl in Ht. apply in_map_iff in Ht. destruct Ht as (u & Hu & Hin).
    destruct (Nat.eqb_spec (tk_id u) (tk_id x)) as [E|E].
    + subst t. now rewrite active_tokens_query_set_inactive in Q.
    + subst t. destruct (H u Hin Q) as [E'|E']; [congruence|assumption].
Qed.

Lemma active_tokens_self_covered owner ty s t :
  In t (nfc_tokens s) -> active_tokens_query owner ty t = true ->
  In (tk_id t) (map tk_id (active_tokens owner ty s)).
Proof.
  intros Hin Q. apply in_map. unfold active_tokens, SupabaseCRUD.read.
  apply filter_In. auto.
Qed.

(** ** Facts about the store *)

Lemma lookup_token_deactivated v id s :
  lookup_token v (deactivated id s)
  = filter (fun t => negb (Nat.eqb (tk_id t) id)) (lookup_token v s).
Proof.
  unfold lookup_token, deactivated, with_nfc_tokens, SupabaseCRUD.read,
    SupabaseCRUD.update. simpl.
  induction (nfc_tokens s) as [|t ts IH]; [reflexivity|].
  simpl. destruct (Nat.eqb (tk_id t) id) eqn:E.
  - rewrite token_query_set_inactive, IH.
    destruct (token_query v t); [simpl; now rewrite E|reflexivity].
  - rewrite IH. destruct (token_query v t); [simpl; now rewrite E|reflexivity].
Qed.

Lemma lookup_token_In v s t :
  In t (lookup_token v s) <->
  In t (nfc_tokens s) /\ tk_token t = v /\ tk_is_active t = true.
Proof.
  unfold lookup_token, SupabaseCRUD.read, token_query.
  rewrite filter_In, andb_true_iff, String.eqb_eq, eqb_true_iff. tauto.
Qed.

Lemma inactive_in_deactivated id s : inactive_in id (deactivated id s).
Proof.
  intros t Hin Hid.
  unfold deactivated, with_nfc_tokens, SupabaseCRUD.update in Hin. simpl in Hin.
  apply in_map_iff in Hin. destruct Hin as (u & Hu & _).
  destruct (Nat.eqb_spec (tk_id u) id) as [E|E]; subst t; [reflexivity|].
  contradiction.
Qed.

Lemma In_set_inactive_deactivated t s :
  In t (nfc_tokens s) -> In (set_inactive t) (nfc_tokens (deactivated (tk_id t) s)).
Proof.
  intro Hin. unfold deactivated, with_nfc_tokens, SupabaseCRUD.update. simpl.
  apply in_map_iff. exists t. now rewrite Nat.eqb_refl.
Qed.

Lemma connection_read_nil user_id target s :
  SupabaseCRUD.read (connection_query user_id target) (connections s) = []
  <-> ~ connected user_id target s.
Proof.
  unfold SupabaseCRUD.read, connected. split.
  - intros H (c & Hin & Hu & Ht).
    assert (Hc : In c (filter (connection_query user_id target) (connections s))).
    { apply filter_In. split; [assumption|]. unfold connection_query.
      now rewrite Hu, Ht, !String.eqb_refl. }
    rewrite H in Hc. destruct Hc.
  - intro H.
    destruct (filter (connection_query user_id target) (connections s))
      as [|c cs] eqn:F; [reflexivity|].
    exfalso. apply H. exists c.
    assert (Hc : In c (filter (connection_query user_id target) (connections s)))
      by (rewrite F; now left).
    apply filter_In in Hc. destruct Hc as [Hin Q].
    unfold connection_query in Q. apply andb_true_iff in Q.
    rewrite !String.eqb_eq in Q. tauto.
Qed.

(** With unique token values a lookup by value returns at most one row. *)
Lemma lookup_token_unique v s td rest :
  token_values_unique s -> lookup_token v s = td :: rest -> rest = [].
Proof.
  unfold token_values_unique, lookup_token, SupabaseCRUD.read.
  induction (nfc_tokens s) as [|t ts IH]; simpl; [discriminate|].
  intros Hnd Hf. apply NoDup_cons_iff in Hnd. destruct Hnd as [Hnotin Hnd].
  destruct (token_query v t) eqn:Q; [|now apply IH].
  injection Hf as -> Hrest.
  destruct rest as [|u rest']; [reflexivity|]. exfalso. apply Hnotin.
  assert (Hu : In u (filter (token_query v) ts)) by (rewrite Hrest; now left).
  apply filter_In in Hu. destruct Hu as [Hin Qu].
  unfold token_query in Q, Qu.
  apply andb_true_iff in Q. apply andb_true_iff in Qu.
  destruct Q as [Q _]. destruct Qu as [Qu _].
  apply String.eqb_eq in Q. apply String.eqb_eq in Qu.
  rewrite Q, <- Qu. now apply in_map.
Qed.

(** ** Redemption is single-use *)

(** Claim C1.  Let the value [token_value] name exactly one active token
    [td], as it does when token values are unique.  A first [connect_via_nfc] by a user other than the owner, not yet
    connected to the owner, at an instant not after [expires_at], succeeds,
    appends exactly one connection and deactivates [td]; a second call with
    the same value, by any user at any instant, fails with [INVALID_TOKEN]
    and leaves the store as the first call left it. *)
Theorem redeem_single_use
    (token_value redeemer : string) (now : datetime) (s : Store)
    (td : NFCToken) :
  lookup_token token_value s = [td] ->
  redeemer <> tk_user_id td ->
  ~ connected redeemer (tk_user_id td) s ->
  (now <= tk_expires_at td)%Z ->
  forall (redeemer' : string) (now' : datetime),
    let first := connect_via_nfc token_value redeemer now s in
    let second := connect_via_nfc token_value redeemer' now' (fst first) in
    succeeds (snd first)
    /\ connections (fst first)
       = connections s
         ++ [mkConnection (next_id s) redeemer (tk_user_id td)
               (tk_profile_type td)]
    /\ In (set_inactive td) (nfc_tokens (fst first))
    /\ inactive_in (tk_id td) (fst first)
    /\ fails_with (snd second) INVALID_TOKEN
    /\ fst second = fst first.
Proof.
  intros Hlook Howner Hconn Hnow redeemer' now' first second.
  assert (Hfirst :
    first =
    (deactivated (tk_id td)
       (bump_next_id
          (with_connections
             (connections s
              ++ [mkConnection (next_id s) redeemer (tk_user_id td)
                    (tk_profile_type td)]) s)),
     Ok (mkConnectResponse "Connection created successfully"
           (Some (mkConnection (next_id s) redeemer (tk_user_id td)
                    (tk_profile_type td)))
           (hd_error
              (SupabaseCRUD.read
                 (profile_query (tk_user_id td) (tk_profile_type td))
                 (profiles s)))))).
  { unfold first. rewrite connect_via_nfc_eq, Hlook.
    apply String.eqb_neq in Howner. rewrite Howner.
    apply Z.ltb_ge in Hnow. rewrite Hnow.
    apply connection_read_nil in Hconn. now rewrite Hconn. }
  assert (Hsecond :
    second = (fst first,
              Raise (ContactsException INVALID_TOKEN "Invalid or expired token"))).
  { unfold second. rewrite connect_via_nfc_eq.
    rewrite Hfirst at 1. cbn [fst].
    rewrite lookup_token_deactivated.
    change (lookup_token token_value (bump_next_id _))
      with (lookup_token token_value s).
    rewrite Hlook. simpl. now rewrite Nat.eqb_refl. }
  rewrite Hsecond. rewrite Hfirst. cbn [fst snd].
  repeat split.
  - eexists; reflexivity.
  - apply (In_set_inactive_deactivated td
             (bump_next_id (with_connections _ s))).
    simpl. apply (lookup_token_In token_value s td). rewrite Hlook. now left.
  - apply inactive_in_deactivated.
  - eexists; reflexivity.
Qed.

Lemma redeem_single_use_witness :
  lookup_token "T1" Scenario.issued = [Scenario.T1_row]
  /\ (let first := connect_via_nfc "T1" "U2" 500%Z Scenario.issued in
      let second := connect_via_nfc "T1" "U3" 600%Z (fst first) in
      succeeds (snd first)
      /\ connections (fst first) = [mkConnection 8 "U2" "U1" family]
      /\ In (set_inactive Scenario.T1_row) (nfc_tokens (fst first))
      /\ inactive_in 1 (fst first)
      /\ fails_with (snd second) INVALID_TOKEN
      /\ fst second = fst first).
Proof.
  split; [reflexivity|].
  apply (redeem_single_use "T1" "U2" 500%Z Scenario.issued Scenario.T1_row).
  - reflexivity.
  - simpl. discriminate.
  - intros (c & Hin & _). destruct Hin.
  - simpl. lia.
Defined.

(** ** Issuance *)

Lemma generate_nfc_token_frame user_id ty now rnd s :
  connections (fst (generate_nfc_token user_id ty now rnd s)) = connections s
  /\ profiles (fst (generate_nfc_token user_id ty now rnd s)) = profiles s.
Proof.
  rewrite generate_nfc_token_eq.
  destruct (SupabaseCRUD.read (profile_query user_id ty) (profiles s));
    [split; reflexivity|].
  cbn [fst bump_next_id with_nfc_tokens connections profiles].
  destruct (deactivate_each_frame (active_tokens user_id ty s) s) as (Hc & Hp & _).
  now rewrite Hc, Hp.
Qed.

(** A served issuance leaves exactly the new token active for its pair. *)
Lemma generate_nfc_token_active user_id ty now rnd s :
  has_profile user_id ty s ->
  exists t, active_tokens user_id ty
              (fst (generate_nfc_token user_id ty now rnd s)) = [t]
            /\ tk_token t = generate_token 32 rnd.
Proof.
  intro Hp. unfold has_profile in Hp. rewrite generate_nfc_token_eq.
  destruct (SupabaseCRUD.read (profile_query user_id ty) (profiles s));
    [contradiction|].
  cbn [fst].
  exists (mkNFCToken
            (next_id (deactivate_each (active_tokens user_id ty s) s))
            user_id (generate_token 32 rnd) ty true
            (now + timedelta_minutes NFC_TOKEN_EXPIRE_MINUTES)%Z).
  split; [|reflexivity].
  unfold active_tokens at 1, SupabaseCRUD.read.
  cbn [bump_next_id with_nfc_tokens nfc_tokens].
  rewrite filter_app.
  fold (SupabaseCRUD.read (active_tokens_query user_id ty)
          (nfc_tokens (deactivate_each (active_tokens user_id ty s) s))).
  fold (active_tokens user_id ty
          (deactivate_each (active_tokens user_id ty s) s)).
  rewrite deactivate_each_clears
    by (intros t; apply active_tokens_self_covered).
  simpl. unfold active_tokens_query. simpl.
  now rewrite String.eqb_refl, ProfileType_eqb_refl.
Qed.

Lemma generate_nfc_token_rejected user_id ty now rnd s :
  ~ has_profile user_id ty s ->
  generate_nfc_token user_id ty now rnd s
  = (s, Raise (ContactsException PROFILE_NOT_FOUND
                 ("Profile of type '" ++ ProfileType_str ty
                  ++ "' not found")%string)).
Proof.
  intro Hp. unfold has_profile in Hp. rewrite generate_nfc_token_eq.
  destruct (SupabaseCRUD.read (profile_query user_id ty) (profiles s));
    [reflexivity|].
  exfalso. apply Hp. discriminate.
Qed.

Lemma has_profile_dec user_id ty s :
  has_profile user_id ty s \/ ~ has_profile user_id ty s.
Proof.
  unfold has_profile.
  destruct (SupabaseCRUD.read (profile_query user_id ty) (profiles s));
    [right; intro H; now apply H | left; discriminate].
Qed.

Lemma issue_all_profiles owner ty calls s :
  profiles (issue_all owner ty calls s) = profiles s.
Proof.
  revert s. induction calls as [|[now rnd] calls IH]; intro s; [reflexivity|].
  simpl. rewrite IH. apply generate_nfc_token_frame.
Qed.

Lemma issue_all_snoc owner ty calls now rnd s :
  issue_all owner ty (calls ++ [(now, rnd)]) s
  = fst (generate_nfc_token owner ty now rnd (issue_all owner ty calls s)).
Proof.
  revert s. induction calls as [|[now0 rnd0] calls IH]; intro s; [reflexivity|].
  simpl. apply IH.
Qed.

(** Claim C2.  Issuance requests for one [(owner_id, profile_type)] pair,
    served one after the other, keep at most one token of the pair active;
    when the owner has the profile and at least one request was served,
    exactly one token of the pair is active afterwards, whatever the store
    held before. *)
Theorem issue_at_most_one_active
    (owner : string) (ty : ProfileType)
    (calls : list (datetime * (nat -> nat))) (s : Store) :
  (List.length (active_tokens owner ty s) <= 1 ->
   List.length (active_tokens owner ty (issue_all owner ty calls s)) <= 1)
  /\ (has_profile owner ty s -> calls <> [] ->
      List.length (active_tokens owner ty (issue_all owner ty calls s)) = 1).
Proof.
  split.
  - revert s. induction calls as [|[now rnd] calls IH]; intros s H;
      [exact H|].
    simpl. apply IH.
    destruct (has_profile_dec owner ty s) as [Hp|Hp].
    + destruct (generate_nfc_token_active owner ty now rnd s Hp) as (t & E & _).
      rewrite E. simpl. lia.
    + now rewrite generate_nfc_token_rejected.
  - intros Hp Hne.
    destruct (exists_last Hne) as (calls' & [now rnd] & ->).
    rewrite issue_all_snoc.
    assert (Hp' : has_profile owner ty (issue_all owner ty calls' s)).
    { unfold has_profile. now rewrite issue_all_profiles. }
    destruct (generate_nfc_token_active owner ty now rnd _ Hp') as (t & E & _).
    now rewrite E.
Qed.

Lemma issue_at_most_one_active_witness :
  List.length (active_tokens "U1" family Scenario.issued) <= 1
  /\ has_profile "U1" family Scenario.issued
  /\ List.length (active_tokens "U1" family
               (issue_all "U1" family
                  [(10%Z, Scenario.draws); (20%Z, Scenario.draws)]
                  Scenario.issued)) <= 1
  /\ List.length (active_tokens "U1" family
               (issue_all "U1" family
                  [(10%Z, Scenario.draws); (20%Z, Scenario.draws)]
                  Scenario.issued)) = 1.
Proof.
  assert (H1 : List.length (active_tokens "U1" family Scenario.issued) <= 1)
    by (vm_compute; lia).
  assert (H2 : has_profile "U1" family Scenario.issued)
    by (vm_compute; discriminate).
  destruct (issue_at_most_one_active "U1" family
              [(10%Z, Scenario.draws); (20%Z, Scenario.draws)]
              Scenario.issued) as [A B].
  split; [exact H1|]. split; [exact H2|]. split; [exact (A H1)|].
  apply (B H2). discriminate.
Defined.

(** ** Expiry *)

(** Claim C3, at the boundary: a validation made exactly at [expires_at]
    (instant 1000 for token [T1]) is served; it does not fail with
    [EXPIRED_TOKEN] and the token stays active. *)
Lemma validate_at_expires_at_is_served :
  lookup_token "T1" Scenario.issued = [Scenario.T1_row]
  /\ (1000 >= tk_expires_at Scenario.T1_row)%Z
  /\ validate_nfc_token "T1" 1000%Z Scenario.issued
     = (Scenario.issued, Ok (mkValidateResponse Scenario.U1_family "U1"))
  /\ ~ fails_with (snd (validate_nfc_token "T1" 1000%Z Scenario.issued))
         EXPIRED_TOKEN.
Proof.
  split; [reflexivity|]. split; [simpl; lia|]. split; [reflexivity|].
  intros (m & H). vm_compute in H. discriminate.
Qed.

(** Claim C3, amended.  Let [td] be the active token a lookup by value
    returns.  A validation at an instant not after [expires_at] (the instant
    [expires_at] included) succeeds when the owner's profile exists, and
    changes nothing; a validation strictly after [expires_at] fails with
    [EXPIRED_TOKEN] and deactivates [td]. *)
Theorem validate_expiry_boundary
    (token_value : string) (now : datetime) (s : Store)
    (td : NFCToken) (rest : list NFCToken) :
  lookup_token token_value s = td :: rest ->
  let r := validate_nfc_token token_value now s in
  ((now <= tk_expires_at td)%Z ->
   has_profile (tk_user_id td) (tk_profile_type td) s ->
   succeeds (snd r) /\ fst r = s)
  /\ ((tk_expires_at td < now)%Z ->
      fails_with (snd r) EXPIRED_TOKEN
      /\ fst r = deactivated (tk_id td) s
      /\ In (set_inactive td) (nfc_tokens (fst r))
      /\ inactive_in (tk_id td) (fst r)).
Proof.
  intros Hlook r. unfold r. rewrite validate_nfc_token_eq, Hlook. split.
  - intros Hnow Hp. apply Z.ltb_ge in Hnow. rewrite Hnow.
    unfold has_profile in Hp.
    destruct (SupabaseCRUD.read _ (profiles s)); [contradiction|].
    split; [eexists|]; reflexivity.
  - intro Hnow. apply Z.ltb_lt in Hnow. rewrite Hnow. cbn [fst snd].
    split; [eexists; reflexivity|]. split; [reflexivity|]. split.
    + apply In_set_inactive_deactivated.
      apply (lookup_token_In token_value s td). rewrite Hlook. now left.
    + apply inactive_in_deactivated.
Qed.

Lemma validate_expiry_boundary_witness :
  lookup_token "T1" Scenario.issued = [Scenario.T1_row]
  /\ succeeds (snd (validate_nfc_token "T1" 1000%Z Scenario.issued))
  /\ fst (validate_nfc_token "T1" 1000%Z Scenario.issued) = Scenario.issued
  /\ fails_with (snd (validate_nfc_token "T1" 1001%Z Scenario.issued))
       EXPIRED_TOKEN
  /\ inactive_in 1 (fst (validate_nfc_token "T1" 1001%Z Scenario.issued)).
Proof.
  assert (L : lookup_token "T1" Scenario.issued = [Scenario.T1_row])
    by reflexivity.
  split; [exact L|].
  destruct (validate_expiry_boundary "T1" 1000%Z Scenario.issued
              Scenario.T1_row [] L) as [A _].
  destruct (validate_expiry_boundary "T1" 1001%Z Scenario.issued
              Scenario.T1_row [] L) as [_ B].
  assert (P : has_profile "U1" family Scenario.issued)
    by (vm_compute; discriminate).
  destruct (A ltac:(simpl; lia) P) as [A1 A2].
  destruct (B ltac:(simpl; lia)) as (B1 & _ & _ & B4).
  split; [exact A1|]. split; [exact A2|]. split; [exact B1|exact B4].
Defined.

(** ** Self-connection *)

(** Claim C4, on a deactivated token: the owner who presents a token that
    was superseded or redeemed gets [INVALID_TOKEN], not
    [SELF_CONNECTION]. *)
Lemma redeem_own_spent_token_is_invalid :
  In (set_inactive Scenario.T1_row) (nfc_tokens Scenario.spent)
  /\ tk_user_id (set_inactive Scenario.T1_row) = "U1"
  /\ connect_via_nfc "T1" "U1" 500%Z Scenario.spent
     = (Scenario.spent,
        Raise (ContactsException INVALID_TOKEN "Invalid or expired token"))
  /\ ~ fails_with (snd (connect_via_nfc "T1" "U1" 500%Z Scenario.spent))
         SELF_CONNECTION.
Proof.
  split; [now left|]. split; [reflexivity|]. split; [reflexivity|].
  intros (m & H). vm_compute in H. discriminate.
Qed.

(** Claim C4, amended.  For a token [t] issued by [owner]: while [t] is the
    active token its value names, a redemption by [owner] fails with
    [SELF_CONNECTION] at every instant, before or after [expires_at], and
    changes nothing; once no active token carries the value ([t] was
    superseded or redeemed), the redemption fails with [INVALID_TOKEN]. *)
Theorem redeem_own_token
    (owner : string) (now : datetime) (s : Store) (t : NFCToken) :
  In t (nfc_tokens s) ->
  tk_user_id t = owner ->
  let r := connect_via_nfc (tk_token t) owner now s in
  (hd_error (lookup_token (tk_token t) s) = Some t ->
   fails_with (snd r) SELF_CONNECTION /\ fst r = s)
  /\ (lookup_token (tk_token t) s = [] ->
      fails_with (snd r) INVALID_TOKEN /\ fst r = s).
Proof.
  intros _ Howner r. unfold r. rewrite connect_via_nfc_eq. split.
  - intro Hhd. destruct (lookup_token (tk_token t) s) as [|td rest];
      [discriminate|].
    injection Hhd as ->. rewrite Howner, String.eqb_refl.
    split; [eexists|]; reflexivity.
  - intros ->. split; [eexists|]; reflexivity.
Qed.

Lemma redeem_own_token_witness :
  In Scenario.T1_row (nfc_tokens Scenario.issued)
  /\ fails_with (snd (connect_via_nfc "T1" "U1" 500%Z Scenario.issued))
       SELF_CONNECTION
  /\ fails_with (snd (connect_via_nfc "T1" "U1" 5000%Z Scenario.issued))
       SELF_CONNECTION
  /\ fails_with (snd (connect_via_nfc "T1" "U1" 500%Z Scenario.spent))
       INVALID_TOKEN.
Proof.
  assert (I : In Scenario.T1_row (nfc_tokens Scenario.issued)) by now left.
  assert (J : In (set_inactive Scenario.T1_row) (nfc_tokens Scenario.spent))
    by now left.
  split; [exact I|].
  destruct (redeem_own_token "U1" 500%Z Scenario.issued Scenario.T1_row
              I eq_refl) as [A _].
  destruct (redeem_own_token "U1" 5000%Z Scenario.issued Scenario.T1_row
              I eq_refl) as [B _].
  destruct (redeem_own_token "U1" 500%Z Scenario.spent
              (set_inactive Scenario.T1_row) J eq_refl) as [_ C].
  split; [exact (proj1 (A eq_refl))|].
  split; [exact (proj1 (B eq_refl))|].
  exact (proj1 (C eq_refl)).
Defined.

(** Claim C5, for the owner: presenting one's own active token after
    [expires_at] fails with [SELF_CONNECTION], not [EXPIRED_TOKEN], and the
    token stays active. *)
Lemma redeem_own_expired_token_is_self_connection :
  lookup_token "T1" Scenario.issued = [Scenario.T1_row]
  /\ (tk_expires_at Scenario.T1_row < 2000)%Z
  /\ connect_via_nfc "T1" "U1" 2000%Z Scenario.issued
     = (Scenario.issued,
        Raise (ContactsException SELF_CONNECTION
                 "Cannot connect with yourself"))
  /\ ~ fails_with (snd (connect_via_nfc "T1" "U1" 2000%Z Scenario.issued))
         EXPIRED_TOKEN
  /\ lookup_token "T1" (fst (connect_via_nfc "T1" "U1" 2000%Z Scenario.issued))
     = [Scenario.T1_row].
Proof.
  split; [reflexivity|]. split; [simpl; lia|]. split; [reflexivity|].
  split; [|reflexivity].
  intros (m & H). vm_compute in H. discriminate.
Qed.

(** Claim C5, amended.  [connect_via_nfc] checks self-connection first and
    expiry second.  Let [td] be the active token a lookup by value returns,
    with [expires_at] before [now].  For every redeemer other than the
    owner the redemption fails with [EXPIRED_TOKEN] and deactivates [td],
    leaving the store exactly as [validate_nfc_token] leaves it; for the
    owner it fails with [SELF_CONNECTION] and changes nothing. *)
Theorem redeem_expired_token
    (token_value redeemer : string) (now : datetime) (s : Store)
    (td : NFCToken) (rest : list NFCToken) :
  lookup_token token_value s = td :: rest ->
  (tk_expires_at td < now)%Z ->
  let r := connect_via_nfc token_value redeemer now s in
  let v := validate_nfc_token token_value now s in
  (redeemer <> tk_user_id td ->
   fails_with (snd r) EXPIRED_TOKEN
   /\ inactive_in (tk_id td) (fst r)
   /\ fails_with (snd v) EXPIRED_TOKEN
   /\ fst r = fst v)
  /\ (redeemer = tk_user_id td ->
      fails_with (snd r) SELF_CONNECTION /\ fst r = s).
Proof.
  intros Hlook Hexp r v. unfold r, v.
  rewrite connect_via_nfc_eq, validate_nfc_token_eq, Hlook.
  apply Z.ltb_lt in Hexp. rewrite Hexp. split.
  - intro Hne. apply String.eqb_neq in Hne. rewrite Hne. cbn [fst snd].
    split; [eexists; reflexivity|]. split; [apply inactive_in_deactivated|].
    split; [eexists|]; reflexivity.
  - intros ->. rewrite String.eqb_refl. split; [eexists|]; reflexivity.
Qed.

Lemma redeem_expired_token_witness :
  lookup_token "T1" Scenario.issued = [Scenario.T1_row]
  /\ (tk_expires_at Scenario.T1_row < 2000)%Z
  /\ fails_with (snd (connect_via_nfc "T1" "U2" 2000%Z Scenario.issued))
       EXPIRED_TOKEN
  /\ fst (connect_via_nfc "T1" "U2" 2000%Z Scenario.issued)
     = fst (validate_nfc_token "T1" 2000%Z Scenario.issued)
  /\ fails_with (snd (connect_via_nfc "T1" "U1" 2000%Z Scenario.issued))
       SELF_CONNECTION.
Proof.
  assert (L : lookup_token "T1" Scenario.issued = [Scenario.T1_row])
    by reflexivity.
  assert (E : (tk_expires_at Scenario.T1_row < 2000)%Z) by (simpl; lia).
  split; [exact L|]. split; [exact E|].
  destruct (redeem_expired_token "T1" "U2" 2000%Z Scenario.issued
              Scenario.T1_row [] L E) as [A _].
  destruct (redeem_expired_token "T1" "U1" 2000%Z Scenario.issued
              Scenario.T1_row [] L E) as [_ B].
  destruct (A ltac:(simpl; discriminate)) as (A1 & _ & _ & A4).
  split; [exact A1|]. split; [exact A4|]. exact (proj1 (B eq_refl)).
Defined.

(** ** The duplicate-connection guard *)

(** Claim C6.  When a connection from [a] to the owner of the presented
    token exists, of whatever connection type, a redemption by [a] of an
    active, unexpired token of that owner fails with [CONNECTION_EXISTS]
    and changes nothing; the profile type of the token plays no part. *)
Theorem redeem_when_connected
    (token_value a : string) (now : datetime) (s : Store)
    (td : NFCToken) (rest : list NFCToken) :
  lookup_token token_value s = td :: rest ->
  a <> tk_user_id td ->
  connected a (tk_user_id td) s ->
  (now <= tk_expires_at td)%Z ->
  fails_with (snd (connect_via_nfc token_value a now s)) CONNECTION_EXISTS
  /\ fst (connect_via_nfc token_value a now s) = s.
Proof.
  intros Hlook Hne Hconn Hnow.
  rewrite connect_via_nfc_eq, Hlook.
  apply String.eqb_neq in Hne. rewrite Hne.
  apply Z.ltb_ge in Hnow. rewrite Hnow.
  destruct (SupabaseCRUD.read (connection_query a (tk_user_id td))
              (connections s)) eqn:R.
  - apply connection_read_nil in R. contradiction.
  - split; [eexists|]; reflexivity.
Qed.

Lemma redeem_when_connected_witness :
  lookup_token "T1" Scenario.linked = [Scenario.T1_row]
  /\ connected "U2" "U1" Scenario.linked
  /\ cn_connection_type Scenario.U2_to_U1 <> tk_profile_type Scenario.T1_row
  /\ fails_with (snd (connect_via_nfc "T1" "U2" 500%Z Scenario.linked))
       CONNECTION_EXISTS
  /\ fst (connect_via_nfc "T1" "U2" 500%Z Scenario.linked) = Scenario.linked.
Proof.
  assert (L : lookup_token "T1" Scenario.linked = [Scenario.T1_row])
    by reflexivity.
  assert (C : connected "U2" "U1" Scenario.linked).
  { exists Scenario.U2_to_U1. split; [now left|split; reflexivity]. }
  split; [exact L|]. split; [exact C|]. split; [simpl; discriminate|].
  apply (redeem_when_connected "T1" "U2" 500%Z Scenario.linked
           Scenario.T1_row [] L).
  - simpl. discriminate.
  - exact C.
  - simpl. lia.
Defined.

(** ** A missing owner profile *)

(** Claim C7.  When the owner's profile of the token's type does not exist,
    a redemption of an active, unexpired token by another user who is not
    yet connected to the owner still succeeds: it appends the connection,
    deactivates the token and answers with no profile; a validation in the
    same store fails with [PROFILE_NOT_FOUND]. *)
Theorem redeem_without_profile
    (token_value redeemer : string) (now : datetime) (s : Store)
    (td : NFCToken) (rest : list NFCToken) :
  lookup_token token_value s = td :: rest ->
  redeemer <> tk_user_id td ->
  ~ connected redeemer (tk_user_id td) s ->
  (now <= tk_expires_at td)%Z ->
  ~ has_profile (tk_user_id td) (tk_profile_type td) s ->
  let r := connect_via_nfc token_value redeemer now s in
  let c := mkConnection (next_id s) redeemer (tk_user_id td)
             (tk_profile_type td) in
  snd r = Ok (mkConnectResponse "Connection created successfully" (Some c) None)
  /\ connections (fst r) = connections s ++ [c]
  /\ In (set_inactive td) (nfc_tokens (fst r))
  /\ inactive_in (tk_id td) (fst r)
  /\ fails_with (snd (validate_nfc_token token_value now s)) PROFILE_NOT_FOUND
  /\ fst (validate_nfc_token token_value now s) = s.
Proof.
  intros Hlook Hne Hconn Hnow Hp r c. unfold r.
  rewrite connect_via_nfc_eq, validate_nfc_token_eq, Hlook.
  apply String.eqb_neq in Hne. rewrite Hne.
  apply Z.ltb_ge in Hnow. rewrite Hnow.
  apply connection_read_nil in Hconn. rewrite Hconn.
  assert (Hp' : SupabaseCRUD.read
                  (profile_query (tk_user_id td) (tk_profile_type td))
                  (profiles s) = []).
  { unfold has_profile in Hp.
    destruct (SupabaseCRUD.read _ (profiles s)); [reflexivity|].
    exfalso. apply Hp. discriminate. }
  rewrite Hp'. cbn [fst snd hd_error].
  split; [reflexivity|]. split; [reflexivity|]. split.
  - apply (In_set_inactive_deactivated td
             (bump_next_id (with_connections _ s))).
    simpl. apply (lookup_token_In token_value s td). rewrite Hlook. now left.
  - split; [apply inactive_in_deactivated|].
    split; [eexists|]; reflexivity.
Qed.

Lemma redeem_without_profile_witness :
  lookup_token "T1" Scenario.orphaned = [Scenario.T1_row]
  /\ ~ has_profile "U1" family Scenario.orphaned
  /\ snd (connect_via_nfc "T1" "U2" 500%Z Scenario.orphaned)
     = Ok (mkConnectResponse "Connection created successfully"
             (Some (mkConnection 8 "U2" "U1" family)) None)
  /\ fails_with (snd (validate_nfc_token "T1" 500%Z Scenario.orphaned))
       PROFILE_NOT_FOUND.
Proof.
  assert (L : lookup_token "T1" Scenario.orphaned = [Scenario.T1_row])
    by reflexivity.
  assert (P : ~ has_profile "U1" family Scenario.orphaned)
    by (intro H; apply H; reflexivity).
  split; [exact L|]. split; [exact P|].
  destruct (redeem_without_profile "T1" "U2" 500%Z Scenario.orphaned
              Scenario.T1_row [] L) as (A & _ & _ & _ & B & _).
  - simpl. discriminate.
  - intros (c & Hin & _). destruct Hin.
  - simpl. lia.
  - exact P.
  - split; [exact A|exact B].
Defined.

(** Claim C8.  [generate_nfc_token] never changes the connections or the
    profiles; when the owner has no profile of the requested type it fails
    with [PROFILE_NOT_FOUND] and leaves the whole store as it was: no token
    is inserted and none is deactivated. *)
Theorem issue_without_profile
    (owner : string) (ty : ProfileType) (now : datetime) (rnd : nat -> nat)
    (s : Store) :
  let r := generate_nfc_token owner ty now rnd s in
  (connections (fst r) = connections s /\ profiles (fst r) = profiles s)
  /\ (~ has_profile owner ty s ->
      fails_with (snd r) PROFILE_NOT_FOUND /\ fst r = s).
Proof.
  intro r. unfold r. split; [apply generate_nfc_token_frame|].
  intro Hp. rewrite (generate_nfc_token_rejected _ _ _ _ _ Hp).
  split; [eexists|]; reflexivity.
Qed.

Lemma issue_without_profile_witness :
  ~ has_profile "U1" work Scenario.issued
  /\ fails_with
       (snd (generate_nfc_token "U1" work 10%Z Scenario.draws Scenario.issued))
       PROFILE_NOT_FOUND
  /\ fst (generate_nfc_token "U1" work 10%Z Scenario.draws Scenario.issued)
     = Scenario.issued.
Proof.
  assert (P : ~ has_profile "U1" work Scenario.issued)
    by (intro H; apply H; reflexivity).
  split; [exact P|].
  exact (proj2 (issue_without_profile "U1" work 10%Z Scenario.draws
                  Scenario.issued) P).
Defined.

(** ** Token format *)

Lemma alphabet_is_alnum :
  forallb is_alnum (list_ascii_of_string (ascii_letters ++ digits)%string)
  = true.
Proof. vm_compute. reflexivity. Qed.

Lemma secrets_choice_alnum entropy :
  is_alnum (secrets_choice (ascii_letters ++ digits)%string entropy) = true.
Proof.
  unfold secrets_choice.
  pose proof alphabet_is_alnum as H. rewrite forallb_forall in H.
  apply H. apply nth_In.
  change (List.length
            (list_ascii_of_string (ascii_letters ++ digits)%string)) with 62.
  change (String.length (ascii_letters ++ digits)%string) with 62.
  apply Nat.mod_upper_bound. discriminate.
Qed.

Lemma string_of_list_ascii_length l :
  String.length (string_of_list_ascii l) = List.length l.
Proof. induction l as [|c l IH]; simpl; [reflexivity|now rewrite IH]. Qed.

Lemma generate_token_format n rnd :
  String.length (generate_token n rnd) = n
  /\ Forall (fun c => is_alnum c = true)
       (list_ascii_of_string (generate_token n rnd)).
Proof.
  unfold generate_token. split.
  - now rewrite string_of_list_ascii_length, length_map, length_seq.
  - rewrite list_ascii_of_string_of_list_ascii.
    apply Forall_forall. intros c Hc. apply in_map_iff in Hc.
    destruct Hc as (i & <- & _). apply secrets_choice_alnum.
Qed.

(** Claim C9.  Whenever [generate_nfc_token] answers with a token, the
    token value has 32 characters and each of them is an ASCII letter or a
    digit, whatever the random generator drew; the row inserted in the
    store carries the same value. *)
Theorem issued_token_format
    (owner : string) (ty : ProfileType) (now : datetime) (rnd : nat -> nat)
    (s : Store) (resp : NFCTokenResponse) :
  snd (generate_nfc_token owner ty now rnd s) = Ok resp ->
  String.length (token resp) = 32
  /\ Forall (fun c => is_alnum c = true) (list_ascii_of_string (token resp))
  /\ exists t, active_tokens owner ty
                 (fst (generate_nfc_token owner ty now rnd s)) = [t]
               /\ tk_token t = token resp.
Proof.
  intro Hok.
  assert (Hp : has_profile owner ty s).
  { destruct (has_profile_dec owner ty s) as [Hp|Hp]; [assumption|].
    rewrite (generate_nfc_token_rejected _ _ _ _ _ Hp) in Hok. discriminate. }
  destruct (generate_nfc_token_active owner ty now rnd s Hp) as (t & Ht & Hv).
  assert (Htok : token resp = generate_token 32 rnd).
  { rewrite generate_nfc_token_eq in Hok. unfold has_profile in Hp.
    destruct (SupabaseCRUD.read (profile_query owner ty) (profiles s));
      [contradiction|].
    cbn [snd] in Hok. injection Hok as <-. reflexivity. }
  rewrite Htok.
  destruct (generate_token_format 32 rnd) as [Hlen Hall].
  split; [exact Hlen|]. split; [exact Hall|].
  exists t. split; assumption.
Qed.

Lemma issued_token_format_witness :
  snd (generate_nfc_token "U1" family 10%Z Scenario.draws Scenario.issued)
  = Ok (mkNFCTokenResponse (generate_token 32 Scenario.draws) family
          (10 + timedelta_minutes NFC_TOKEN_EXPIRE_MINUTES)%Z)
  /\ String.length (generate_token 32 Scenario.draws) = 32
  /\ Forall (fun c => is_alnum c = true)
       (list_ascii_of_string (generate_token 32 Scenario.draws)).
Proof.
  assert (H : snd (generate_nfc_token "U1" family 10%Z Scenario.draws
                     Scenario.issued)
              = Ok (mkNFCTokenResponse (generate_token 32 Scenario.draws)
                      family
                      (10 + timedelta_minutes NFC_TOKEN_EXPIRE_MINUTES)%Z))
    by reflexivity.
  split; [exact H|].
  destruct (issued_token_format "U1" family 10%Z Scenario.draws
              Scenario.issued _ H) as (A & B & _).
  split; [exact A|exact B].
Defined.

(** ** Failed redemptions *)

(** Claim C10.  A redemption that fails with any code other than
    [EXPIRED_TOKEN] changes nothing in the store, so only expiry and a
    successful redemption deactivate a token.  In particular, after a
    failure with [CONNECTION_EXISTS] or [SELF_CONNECTION] the presented
    token is still the active token its value names, no connection was
    added, and another user who is neither the owner nor connected to the
    owner can still redeem it while it has not expired. *)
Theorem failed_redeem_keeps_token
    (token_value redeemer : string) (now : datetime) (s : Store)
    (c : ErrorCode) :
  fails_with (snd (connect_via_nfc token_value redeemer now s)) c ->
  c <> EXPIRED_TOKEN ->
  let s' := fst (connect_via_nfc token_value redeemer now s) in
  s' = s
  /\ (c = CONNECTION_EXISTS \/ c = SELF_CONNECTION ->
      exists td rest,
        lookup_token token_value s' = td :: rest
        /\ In td (nfc_tokens s')
        /\ tk_is_active td = true
        /\ connections s' = connections s
        /\ forall (other : string) (later : datetime),
             other <> tk_user_id td ->
             ~ connected other (tk_user_id td) s' ->
             (later <= tk_expires_at td)%Z ->
             succeeds (snd (connect_via_nfc token_value other later s'))).
Proof.
  intros (m & Hfail) Hc s'. unfold s'. clear s'.
  rewrite connect_via_nfc_eq in Hfail |- *.
  destruct (lookup_token token_value s) as [|td rest] eqn:Hlook.
  - cbn [fst snd] in *. split; [reflexivity|].
    injection Hfail as <- _. intros [H|H]; discriminate.
  - assert (Hin : In td (nfc_tokens s) /\ tk_is_active td = true).
    { pose proof (proj1 (lookup_token_In token_value s td)) as H.
      rewrite Hlook in H. destruct (H (or_introl eq_refl)) as (A & _ & B).
      now split. }
    assert (Hother :
      forall other later,
        other <> tk_user_id td -> ~ connected other (tk_user_id td) s ->
        (later <= tk_expires_at td)%Z ->
        succeeds (snd (connect_via_nfc token_value other later s))).
    { intros other later Ho Hn Hl. rewrite connect_via_nfc_eq, Hlook.
      apply String.eqb_neq in Ho. rewrite Ho.
      apply Z.ltb_ge in Hl. rewrite Hl.
      apply connection_read_nil in Hn. rewrite Hn. eexists; reflexivity. }
    destruct (String.eqb redeemer (tk_user_id td)).
    + cbn [fst snd] in *. split; [reflexivity|]. intros _.
      exists td, rest. rewrite Hlook. tauto.
    + destruct (tk_expires_at td <? now)%Z.
      * cbn [snd] in Hfail. injection Hfail as <- _. contradiction.
      * destruct (SupabaseCRUD.read
                    (connection_query redeemer (tk_user_id td))
                    (connections s)).
        -- cbn [snd] in Hfail. discriminate.
        -- cbn [fst snd] in *. split; [reflexivity|]. intros _.
           exists td, rest. rewrite Hlook. tauto.
Qed.

Lemma failed_redeem_keeps_token_witness :
  fails_with (snd (connect_via_nfc "T1" "U2" 500%Z Scenario.linked))
    CONNECTION_EXISTS
  /\ fst (connect_via_nfc "T1" "U2" 500%Z Scenario.linked) = Scenario.linked
  /\ succeeds
       (snd (connect_via_nfc "T1" "U3" 600%Z
               (fst (connect_via_nfc "T1" "U2" 500%Z Scenario.linked)))).
Proof.
  assert (F : fails_with (snd (connect_via_nfc "T1" "U2" 500%Z Scenario.linked))
                CONNECTION_EXISTS)
    by (eexists; reflexivity).
  split; [exact F|].
  destruct (failed_redeem_keeps_token "T1" "U2" 500%Z Scenario.linked
              CONNECTION_EXISTS F ltac:(discriminate)) as [A B].
  split; [exact A|].
  destruct (B (or_introl eq_refl)) as (td & rest & L & _ & _ & _ & R).
  assert (E : td = Scenario.T1_row).
  { rewrite A in L. vm_compute in L. now injection L as <- _. }
  subst td. apply R.
  - simpl. discriminate.
  - rewrite A. intros (c & [<-|[]] & Hu & _). simpl in Hu. discriminate.
  - simpl. lia.
Defined.

(** ** The supersession loop in closed form *)

Lemma set_inactive_idem t : set_inactive (set_inactive t) = set_inactive t.
Proof. reflexivity. Qed.

Lemma deactivate_each_tokens xs s :
  nfc_tokens (deactivate_each xs s)
  = map (fun t => if superseded_by xs t then set_inactive t else t)
      (nfc_tokens s).
Proof.
  revert s. induction xs as [|x xs IH]; intro s.
  - simpl. symmetry. apply map_id.
  - simpl. rewrite IH.
    unfold deactivated, with_nfc_tokens, SupabaseCRUD.update. simpl.
    rewrite map_map. apply map_ext. intro t.
    unfold superseded_by. simpl.
    destruct (Nat.eqb (tk_id t) (tk_id x)) eqn:E; simpl; rewrite ?E; simpl.
    + destruct (existsb (Nat.eqb (tk_id t)) (map tk_id xs)); reflexivity.
    + reflexivity.
Qed.

Lemma generate_nfc_token_tokens user_id ty now rnd s :
  has_profile user_id ty s ->
  nfc_tokens (fst (generate_nfc_token user_id ty now rnd s))
  = map (fun t =>
           if superseded_by (active_tokens user_id ty s) t
           then set_inactive t else t) (nfc_tokens s)
    ++ [mkNFCToken (next_id s) user_id (generate_token 32 rnd) ty true
          (now + timedelta_minutes NFC_TOKEN_EXPIRE_MINUTES)%Z].
Proof.
  intro Hp. unfold has_profile in Hp. rewrite generate_nfc_token_eq.
  destruct (SupabaseCRUD.read (profile_query user_id ty) (profiles s));
    [contradiction|].
  cbn [fst bump_next_id with_nfc_tokens nfc_tokens].
  rewrite deactivate_each_tokens.
  destruct (deactivate_each_frame (active_tokens user_id ty s) s)
    as (_ & _ & ->).
  reflexivity.
Qed.

(** ** Validation as a probe *)

Lemma validate_nfc_token_frame token_value now s :
  connections (fst (validate_nfc_token token_value now s)) = connections s
  /\ profiles (fst (validate_nfc_token token_value now s)) = profiles s
  /\ next_id (fst (validate_nfc_token token_value now s)) = next_id s.
Proof.
  rewrite validate_nfc_token_eq.
  destruct (lookup_token token_value s) as [|td rest]; [now repeat split|].
  destruct (tk_expires_at td <? now)%Z; [now repeat split|].
  destruct (SupabaseCRUD.read _ (profiles s)); now repeat split.
Qed.

(** Property X1.  [validate_nfc_token] never touches the connections, the
    profiles or the identifier counter, and unless it reports
    [EXPIRED_TOKEN] it leaves the whole store as it was. *)
Theorem validate_is_read_only (token_value : string) (now : datetime)
    (s : Store) :
  let r := validate_nfc_token token_value now s in
  (connections (fst r) = connections s
   /\ profiles (fst r) = profiles s
   /\ next_id (fst r) = next_id s)
  /\ (~ fails_with (snd r) EXPIRED_TOKEN -> fst r = s).
Proof.
  intro r. unfold r. rewrite validate_nfc_token_eq.
  destruct (lookup_token token_value s) as [|td rest]; [now repeat split|].
  destruct (tk_expires_at td <? now)%Z.
  - cbn [fst snd]. split; [now repeat split|].
    intro H. exfalso. apply H. eexists; reflexivity.
  - destruct (SupabaseCRUD.read _ (profiles s)); now repeat split.
Qed.

Lemma validate_is_read_only_witness :
  ~ fails_with (snd (validate_nfc_token "T1" 500%Z Scenario.orphaned))
      EXPIRED_TOKEN
  /\ fst (validate_nfc_token "T1" 500%Z Scenario.orphaned) = Scenario.orphaned.
Proof.
  assert (H : ~ fails_with
                (snd (validate_nfc_token "T1" 500%Z Scenario.orphaned))
                EXPIRED_TOKEN).
  { intros (m & E). vm_compute in E. discriminate. }
  split; [exact H|].
  exact (proj2 (validate_is_read_only "T1" 500%Z Scenario.orphaned) H).
Defined.

(** Property X2.  Expiry is reported once.  When the value names exactly
    one active token and a validation finds it expired, the token is
    deactivated, so every later validation or redemption with that value
    answers [INVALID_TOKEN], not [EXPIRED_TOKEN]. *)
Theorem expired_token_reported_once
    (token_value : string) (now : datetime) (s : Store) (td : NFCToken) :
  lookup_token token_value s = [td] ->
  (tk_expires_at td < now)%Z ->
  let s1 := fst (validate_nfc_token token_value now s) in
  fails_with (snd (validate_nfc_token token_value now s)) EXPIRED_TOKEN
  /\ forall (later : datetime) (redeemer : string),
       fails_with (snd (validate_nfc_token token_value later s1)) INVALID_TOKEN
       /\ fails_with (snd (connect_via_nfc token_value redeemer later s1))
            INVALID_TOKEN.
Proof.
  intros Hlook Hexp s1.
  assert (Hs1 : s1 = deactivated (tk_id td) s).
  { unfold s1. rewrite validate_nfc_token_eq, Hlook.
    apply Z.ltb_lt in Hexp. now rewrite Hexp. }
  assert (Hgone : lookup_token token_value s1 = []).
  { rewrite Hs1, lookup_token_deactivated, Hlook. simpl.
    now rewrite Nat.eqb_refl. }
  split.
  - rewrite validate_nfc_token_eq, Hlook.
    apply Z.ltb_lt in Hexp. rewrite Hexp. eexists; reflexivity.
  - intros later redeemer.
    rewrite validate_nfc_token_eq, connect_via_nfc_eq, Hgone.
    split; eexists; reflexivity.
Qed.

Lemma expired_token_reported_once_witness :
  lookup_token "T1" Scenario.issued = [Scenario.T1_row]
  /\ fails_with (snd (validate_nfc_token "T1" 2000%Z Scenario.issued))
       EXPIRED_TOKEN
  /\ fails_with
       (snd (validate_nfc_token "T1" 2001%Z
               (fst (validate_nfc_token "T1" 2000%Z Scenario.issued))))
       INVALID_TOKEN.
Proof.
  assert (L : lookup_token "T1" Scenario.issued = [Scenario.T1_row])
    by reflexivity.
  split; [exact L|].
  destruct (expired_token_reported_once "T1" 2000%Z Scenario.issued
              Scenario.T1_row L ltac:(simpl; lia)) as [A B].
  split; [exact A|]. exact (proj1 (B 2001%Z "U2")).
Defined.

(** ** Tokens are never removed and never reactivated *)

Lemma token_kept_trans t t' t'' :
  token_kept t t' -> token_kept t' t'' -> token_kept t t''.
Proof.
  unfold token_kept. intros [->| ->] [->| ->]; auto.
Qed.

Lemma Forall2_token_kept_refl ts : Forall2 token_kept ts ts.
Proof. induction ts; constructor; [now left|assumption]. Qed.

Lemma Forall2_token_kept_trans ts ts' ts'' :
  Forall2 token_kept ts ts' -> Forall2 token_kept ts' ts'' ->
  Forall2 token_kept ts ts''.
Proof.
  intro H. revert ts''. induction H as [|t t' ts ts' Ht _ IH]; intros ts'' H'.
  - inversion H'. constructor.
  - inversion H' as [|? t'' ? ts''0 Ht' Hrest]; subst. constructor.
    + eapply token_kept_trans; eassumption.
    + now apply IH.
Qed.

Lemma Forall2_token_kept_map (g : NFCToken -> bool) ts :
  Forall2 token_kept ts (map (fun t => if g t then set_inactive t else t) ts).
Proof.
  induction ts as [|t ts IH]; simpl; constructor; [|assumption].
  destruct (g t); [now right|now left].
Qed.

Lemma tokens_extend_refl ts : tokens_extend ts ts.
Proof.
  exists ts, []. split; [now rewrite app_nil_r|apply Forall2_token_kept_refl].
Qed.

Lemma tokens_extend_trans ts ts' ts'' :
  tokens_extend ts ts' -> tokens_extend ts' ts'' -> tokens_extend ts ts''.
Proof.
  intros (k1 & a1 & -> & H1) (k2 & a2 & -> & H2).
  apply Forall2_app_inv_l in H2. destruct H2 as (k1' & a1' & Hk & _ & ->).
  exists k1', (a1' ++ a2). split; [now rewrite app_assoc|].
  eapply Forall2_token_kept_trans; eassumption.
Qed.

Lemma tokens_extend_deactivated id s :
  tokens_extend (nfc_tokens s) (nfc_tokens (deactivated id s)).
Proof.
  exists (nfc_tokens (deactivated id s)), []. split; [now rewrite app_nil_r|].
  unfold deactivated, with_nfc_tokens, SupabaseCRUD.update. simpl.
  apply (Forall2_token_kept_map (fun t => Nat.eqb (tk_id t) id)).
Qed.

Lemma tokens_extend_serve r s :
  tokens_extend (nfc_tokens s) (nfc_tokens (serve r s)).
Proof.
  destruct r as [user_id ty now rnd|token now|token user_id now]; simpl.
  - destruct (has_profile_dec user_id ty s) as [Hp|Hp].
    + rewrite (generate_nfc_token_tokens _ _ _ _ _ Hp).
      eexists _, _. split; [reflexivity|].
      apply (Forall2_token_kept_map
               (superseded_by (active_tokens user_id ty s))).
    + rewrite (generate_nfc_token_rejected _ _ _ _ _ Hp).
      apply tokens_extend_refl.
  - rewrite validate_nfc_token_eq.
    destruct (lookup_token token s) as [|td rest];
      [apply tokens_extend_refl|].
    destruct (tk_expires_at td <? now)%Z;
      [apply tokens_extend_deactivated|].
    destruct (SupabaseCRUD.read _ (profiles s)); apply tokens_extend_refl.
  - rewrite connect_via_nfc_eq.
    destruct (lookup_token token s) as [|td rest];
      [apply tokens_extend_refl|].
    destruct (String.eqb user_id (tk_user_id td));
      [apply tokens_extend_refl|].
    destruct (tk_expires_at td <? now)%Z;
      [apply tokens_extend_deactivated|].
    destruct (SupabaseCRUD.read _ (connections s));
      [|apply tokens_extend_refl].
    apply (tokens_extend_deactivated (tk_id td)
             (bump_next_id (with_connections _ s))).
Qed.

(** Property X3.  Whatever requests the NFC router serves, in whatever
    order, every token row stays in its place in the table, unchanged or
    with [is_active] cleared; new rows are only appended.  In particular a
    token that is inactive stays in the table exactly as it is: no request
    removes a token or makes it active again. *)
Theorem tokens_never_removed_nor_reactivated (rs : list Request) (s : Store) :
  tokens_extend (nfc_tokens s) (nfc_tokens (serve_all rs s))
  /\ forall t, In t (nfc_tokens s) -> tk_is_active t = false ->
               In t (nfc_tokens (serve_all rs s)).
Proof.
  assert (H : tokens_extend (nfc_tokens s) (nfc_tokens (serve_all rs s))).
  { revert s. induction rs as [|r rs IH]; intro s; [apply tokens_extend_refl|].
    simpl. eapply tokens_extend_trans; [apply tokens_extend_serve|apply IH]. }
  split; [exact H|].
  intros t Hin Hoff. destruct H as (kept & added & -> & HF).
  apply in_or_app. left.
  clear - Hin Hoff HF. induction HF as [|u u' us us' Hu _ IH];
    [destruct Hin|].
  destruct Hin as [->|Hin]; [left|right; now apply IH].
  destruct Hu as [->| ->]; [reflexivity|].
  destruct t. simpl in Hoff. subst. reflexivity.
Qed.

(** ** Connections under any sequence of requests *)

Lemma NoDup_snoc {A : Type} (l : list A) (x : A) :
  NoDup l -> ~ In x l -> NoDup (l ++ [x]).
Proof.
  induction l as [|a l IH]; simpl; intros Hnd Hx.
  - constructor; [intros []|constructor].
  - apply NoDup_cons_iff in Hnd. destruct Hnd as [Ha Hnd]. constructor.
    + intro Hin. apply in_app_or in Hin. destruct Hin as [Hin|[->|[]]];
        [contradiction|]. apply Hx. now left.
    + apply IH; [assumption|]. intro Hin. apply Hx. now right.
Qed.

(** What one request does to the connections: nothing, or one appended row
    between two different users that were not connected in that direction. *)
Lemma serve_connections r s :
  connections (serve r s) = connections s
  \/ exists c, connections (serve r s) = connections s ++ [c]
               /\ cn_user_id c <> cn_connected_user_id c
               /\ ~ connected (cn_user_id c) (cn_connected_user_id c) s.
Proof.
  destruct r as [user_id ty now rnd|token now|token user_id now]; simpl.
  - left. apply generate_nfc_token_frame.
  - left. apply validate_nfc_token_frame.
  - rewrite connect_via_nfc_eq.
    destruct (lookup_token token s) as [|td rest]; [now left|].
    destruct (String.eqb_spec user_id (tk_user_id td)) as [E|E]; [now left|].
    destruct (tk_expires_at td <? now)%Z; [now left|].
    destruct (SupabaseCRUD.read (connection_query user_id (tk_user_id td))
                (connections s)) eqn:R; [|now left].
    right. eexists. split; [reflexivity|]. simpl. split; [exact E|].
    now apply connection_read_nil.
Qed.

Lemma serve_profiles r s : profiles (serve r s) = profiles s.
Proof.
  destruct r as [user_id ty now rnd|token now|token user_id now]; simpl.
  - apply generate_nfc_token_frame.
  - apply validate_nfc_token_frame.
  - rewrite connect_via_nfc_eq.
    destruct (lookup_token token s) as [|td rest]; [reflexivity|].
    destruct (String.eqb user_id (tk_user_id td)); [reflexivity|].
    destruct (tk_expires_at td <? now)%Z; [reflexivity|].
    destruct (SupabaseCRUD.read _ (connections s)); reflexivity.
Qed.

(** Property X4.  The NFC router keeps the connection table well formed:
    if no two connections share the pair [(user_id, connected_user_id)] and
    no connection joins a user to itself, the same holds after any sequence
    of requests. *)
Theorem connections_stay_well_formed (rs : list Request) (s : Store) :
  connection_pairs_unique s ->
  no_self_connection s ->
  connection_pairs_unique (serve_all rs s)
  /\ no_self_connection (serve_all rs s).
Proof.
  revert s. induction rs as [|r rs IH]; intros s Hu Hn; [now split|].
  simpl. apply IH.
  - unfold connection_pairs_unique in *.
    destruct (serve_connections r s) as [->|(c & -> & _ & Hc)];
      [assumption|].
    rewrite map_app. apply NoDup_snoc; [assumption|].
    intro Hin. apply in_map_iff in Hin. destruct Hin as (c' & Hp & Hin).
    apply Hc. exists c'. unfold connection_pair in Hp.
    injection Hp as Hp1 Hp2. auto.
  - unfold no_self_connection in *.
    destruct (serve_connections r s) as [->|(c & -> & Hc & _)];
      [assumption|].
    intros c' Hin. apply in_app_or in Hin.
    destruct Hin as [Hin|[<-|[]]]; [now apply Hn|assumption].
Qed.

Lemma connections_stay_well_formed_witness :
  connection_pairs_unique Scenario.linked
  /\ no_self_connection Scenario.linked
  /\ connection_pairs_unique
       (serve_all [ConnectRequest "T1" "U3" 500%Z;
                   GenerateRequest "U1" family 600%Z Scenario.draws;
                   ConnectRequest "T1" "U2" 700%Z] Scenario.linked)
  /\ no_self_connection
       (serve_all [ConnectRequest "T1" "U3" 500%Z;
                   GenerateRequest "U1" family 600%Z Scenario.draws;
                   ConnectRequest "T1" "U2" 700%Z] Scenario.linked).
Proof.
  assert (U : connection_pairs_unique Scenario.linked).
  { unfold connection_pairs_unique. simpl.
    constructor; [intros []|constructor]. }
  assert (N : no_self_connection Scenario.linked).
  { intros c [<-|[]]. simpl. discriminate. }
  split; [exact U|]. split; [exact N|].
  exact (connections_stay_well_formed _ Scenario.linked U N).
Defined.

(** Property X5.  The NFC router only appends to the connection table and
    never writes to the profiles: after any sequence of requests the old
    connections are a prefix of the new ones, a user who was connected to
    another one still is, and the profiles are unchanged. *)
Theorem router_only_appends_connections (rs : list Request) (s : Store) :
  (exists added, connections (serve_all rs s) = connections s ++ added)
  /\ (forall u v, connected u v s -> connected u v (serve_all rs s))
  /\ profiles (serve_all rs s) = profiles s.
Proof.
  assert (H : (exists added,
                 connections (serve_all rs s) = connections s ++ added)
              /\ profiles (serve_all rs s) = profiles s).
  { revert s. induction rs as [|r rs IH]; intro s.
    - split; [exists []; now rewrite app_nil_r|reflexivity].
    - simpl. destruct (IH (serve r s)) as ((added & Ha) & Hp).
      rewrite Ha, Hp, serve_profiles. split; [|reflexivity].
      destruct (serve_connections r s) as [->|(c & -> & _)].
      + now exists added.
      + exists (c :: added). now rewrite <- app_assoc. }
  destruct H as ((added & Ha) & Hp).
  split; [now exists added|]. split; [|exact Hp].
  intros u v (c & Hin & Hu & Hv). exists c. rewrite Ha.
  split; [apply in_or_app; now left|now split].
Qed.

(** ** Issuance touches one pair only *)

Lemma NoDup_map_eq {A B : Type} (f : A -> B) (l : list A) (a b : A) :
  NoDup (map f l) -> In a l -> In b l -> f a = f b -> a = b.
Proof.
  induction l as [|x l IH]; simpl; [intros _ []|].
  intros Hnd Ha Hb E. apply NoDup_cons_iff in Hnd. destruct Hnd as [Hx Hnd].
  destruct Ha as [->|Ha], Hb as [->|Hb].
  - reflexivity.
  - exfalso. apply Hx. rewrite E. now apply in_map.
  - exfalso. apply Hx. rewrite <- E. now apply in_map.
  - now apply IH.
Qed.

Lemma filter_map_stable {A : Type} (q : A -> bool) (g : A -> A) (l : list A) :
  (forall t, In t l -> q (g t) = q t /\ (q t = true -> g t = t)) ->
  filter q (map g l) = filter q l.
Proof.
  induction l as [|t l IH]; intro H; [reflexivity|].
  simpl. destruct (H t (or_introl eq_refl)) as [E G].
  rewrite E. rewrite IH by (intros u Hu; apply H; now right).
  destruct (q t); [now rewrite G|reflexivity].
Qed.

Lemma superseded_by_In xs t :
  superseded_by xs t = true -> exists x, In x xs /\ tk_id t = tk_id x.
Proof.
  unfold superseded_by. intro H. apply existsb_exists in H.
  destruct H as (i & Hin & E). apply Nat.eqb_eq in E.
  apply in_map_iff in Hin. destruct Hin as (x & <- & Hx). now exists x.
Qed.

Lemma active_tokens_In owner ty s t :
  In t (active_tokens owner ty s) <->
  In t (nfc_tokens s) /\ tk_user_id t = owner /\ tk_profile_type t = ty
  /\ tk_is_active t = true.
Proof.
  unfold active_tokens, SupabaseCRUD.read, active_tokens_query.
  rewrite filter_In, !andb_true_iff, String.eqb_eq, ProfileType_eqb_eq,
    eqb_true_iff. tauto.
Qed.

(** Property X6.  When [id] is a key of the token table, issuing a token
    for one [(owner_id, profile_type)] pair leaves the active tokens of
    every other pair exactly as they were. *)
Theorem issue_leaves_other_pairs
    (owner owner' : string) (ty ty' : ProfileType) (now : datetime)
    (rnd : nat -> nat) (s : Store) :
  token_ids_unique s ->
  owner' <> owner \/ ty' <> ty ->
  active_tokens owner' ty' (fst (generate_nfc_token owner ty now rnd s))
  = active_tokens owner' ty' s.
Proof.
  intros Hids Hother.
  destruct (has_profile_dec owner ty s) as [Hp|Hp];
    [|now rewrite (generate_nfc_token_rejected _ _ _ _ _ Hp)].
  assert (Hq : forall t, tk_user_id t = owner -> tk_profile_type t = ty ->
                         active_tokens_query owner' ty' t = false).
  { intros t Hu Ht. unfold active_tokens_query. rewrite Hu, Ht.
    destruct Hother as [H|H].
    - apply not_eq_sym in H. apply String.eqb_neq in H. now rewrite H.
    - destruct (ProfileType_eqb ty ty') eqn:E.
      + apply ProfileType_eqb_eq in E. congruence.
      + now rewrite andb_false_r. }
  unfold active_tokens at 1, SupabaseCRUD.read.
  rewrite (generate_nfc_token_tokens _ _ _ _ _ Hp), filter_app.
  simpl. rewrite Hq by reflexivity. rewrite app_nil_r.
  apply filter_map_stable. intros t Hin.
  destruct (superseded_by (active_tokens owner ty s) t) eqn:S;
    [|split; reflexivity].
  apply superseded_by_In in S. destruct S as (x & Hx & Hid).
  apply active_tokens_In in Hx. destruct Hx as (Hxin & Hxu & Hxt & _).
  assert (t = x) by (eapply NoDup_map_eq; eassumption). subst x.
  rewrite active_tokens_query_set_inactive, (Hq t Hxu Hxt).
  split; [reflexivity|discriminate].
Qed.

Lemma issue_leaves_other_pairs_witness :
  token_ids_unique Household.store
  /\ active_tokens "U1" family
       (fst (generate_nfc_token "U1" work 10%Z Scenario.draws Household.store))
     = active_tokens "U1" family Household.store.
Proof.
  assert (U : token_ids_unique Household.store).
  { unfold token_ids_unique. simpl.
    constructor; [intros [H|[]]; discriminate|].
    constructor; [intros []|constructor]. }
  split; [exact U|].
  apply issue_leaves_other_pairs; [exact U|].
  right. discriminate.
Defined.

(** ** Issuance followed by validation or redemption *)

Lemma filter_map_nil {A : Type} (q : A -> bool) (g : A -> A) (l : list A) :
  (forall t, In t l -> q (g t) = false) -> filter q (map g l) = [].
Proof.
  induction l as [|t l IH]; intro H; [reflexivity|].
  simpl. rewrite (H t (or_introl eq_refl)). apply IH.
  intros u Hu. apply H. now right.
Qed.

Lemma token_query_deactivation v (b : bool) t :
  token_query v t = false ->
  token_query v (if b then set_inactive t else t) = false.
Proof.
  intro H. destruct b; [apply token_query_set_inactive|exact H].
Qed.

Lemma lookup_token_nil v s t :
  lookup_token v s = [] -> In t (nfc_tokens s) -> token_query v t = false.
Proof.
  unfold lookup_token, SupabaseCRUD.read. intros H Hin.
  destruct (token_query v t) eqn:Q; [|reflexivity].
  assert (Hf : In t (filter (token_query v) (nfc_tokens s)))
    by (apply filter_In; now split).
  rewrite H in Hf. destruct Hf.
Qed.

Lemma generate_nfc_token_ok user_id ty now rnd s resp :
  snd (generate_nfc_token user_id ty now rnd s) = Ok resp ->
  has_profile user_id ty s
  /\ resp = mkNFCTokenResponse (generate_token 32 rnd) ty
              (now + timedelta_minutes NFC_TOKEN_EXPIRE_MINUTES)%Z.
Proof.
  intro Hok. destruct (has_profile_dec user_id ty s) as [Hp|Hp].
  - split; [exact Hp|]. unfold has_profile in Hp.
    rewrite generate_nfc_token_eq in Hok.
    destruct (SupabaseCRUD.read (profile_query user_id ty) (profiles s));
      [contradiction|].
    cbn [snd] in Hok. now injection Hok as <-.
  - rewrite (generate_nfc_token_rejected _ _ _ _ _ Hp) in Hok. discriminate.
Qed.

(** After an issuance the new token is the only active token carrying its
    value, when no active token carried that value before. *)
Lemma lookup_issued_token user_id ty now rnd s :
  has_profile user_id ty s ->
  lookup_token (generate_token 32 rnd) s = [] ->
  lookup_token (generate_token 32 rnd)
    (fst (generate_nfc_token user_id ty now rnd s))
  = [mkNFCToken (next_id s) user_id (generate_token 32 rnd) ty true
       (now + timedelta_minutes NFC_TOKEN_EXPIRE_MINUTES)%Z].
Proof.
  intros Hp Hfresh. unfold lookup_token at 1, SupabaseCRUD.read.
  rewrite (generate_nfc_token_tokens _ _ _ _ _ Hp), filter_app.
  revert Hfresh. generalize (generate_token 32 rnd). intros v Hfresh.
  rewrite filter_map_nil.
  - cbn [filter app]. unfold token_query at 1.
    cbn [tk_token tk_is_active]. now rewrite String.eqb_refl.
  - intros t Hin. apply token_query_deactivation.
    eapply lookup_token_nil; eassumption.
Qed.

Lemma profile_read_head user_id ty s p rest :
  SupabaseCRUD.read (profile_query user_id ty) (profiles s) = p :: rest ->
  pf_user_id p = user_id /\ pf_type p = ty /\ In p (profiles s).
Proof.
  intro H.
  assert (Hin : In p (filter (profile_query user_id ty) (profiles s)))
    by (unfold SupabaseCRUD.read in H; rewrite H; now left).
  apply filter_In in Hin. destruct Hin as [Hin Q].
  unfold profile_query in Q. apply andb_true_iff in Q. destruct Q as [Q1 Q2].
  apply String.eqb_eq in Q1. apply ProfileType_eqb_eq in Q2. auto.
Qed.

(** Property X7.  Issue, then validate.  When no active token already
    carries the generated value, validating the returned token at any
    instant up to and including the returned [expires_at] (sixty minutes
    after issuance) succeeds, names the issuer as [user_id], returns a
    profile of the issuer of the requested type and changes nothing;
    validating it later fails with [EXPIRED_TOKEN]. *)
Theorem issued_token_validates
    (owner : string) (ty : ProfileType) (now later : datetime)
    (rnd : nat -> nat) (s : Store) (resp : NFCTokenResponse) :
  snd (generate_nfc_token owner ty now rnd s) = Ok resp ->
  lookup_token (token resp) s = [] ->
  let s1 := fst (generate_nfc_token owner ty now rnd s) in
  let v := validate_nfc_token (token resp) later s1 in
  expires_at resp = (now + 3600000000)%Z
  /\ ((later <= expires_at resp)%Z ->
      exists p, snd v = Ok (mkValidateResponse p owner)
                /\ In p (profiles s)
                /\ pf_user_id p = owner /\ pf_type p = ty
                /\ fst v = s1)
  /\ ((expires_at resp < later)%Z -> fails_with (snd v) EXPIRED_TOKEN).
Proof.
  intros Hok Hfresh s1 v.
  destruct (generate_nfc_token_ok _ _ _ _ _ _ Hok) as [Hp ->].
  cbn [token expires_at] in *. split; [reflexivity|].
  unfold v, s1. rewrite validate_nfc_token_eq.
  rewrite (lookup_issued_token _ _ _ _ _ Hp Hfresh). cbn [tk_expires_at].
  split.
  - intro Hl. apply Z.ltb_ge in Hl. rewrite Hl.
    cbn [tk_user_id tk_profile_type].
    rewrite (proj2 (generate_nfc_token_frame owner ty now rnd s)).
    unfold has_profile in Hp.
    destruct (SupabaseCRUD.read (profile_query owner ty) (profiles s))
      as [|p rest] eqn:R; [contradiction|].
    destruct (profile_read_head _ _ _ _ _ R) as (Hu & Ht & Hin).
    exists p. cbn [fst snd]. auto.
  - intro Hl. apply Z.ltb_lt in Hl. rewrite Hl. eexists; reflexivity.
Qed.

Lemma issued_token_validates_witness :
  lookup_token (generate_token 32 Scenario.draws) Scenario.issued = []
  /\ (exists p,
        snd (validate_nfc_token (generate_token 32 Scenario.draws)
               3600000010%Z
               (fst (generate_nfc_token "U1" family 10%Z Scenario.draws
                       Scenario.issued)))
        = Ok (mkValidateResponse p "U1"))
  /\ fails_with
       (snd (validate_nfc_token (generate_token 32 Scenario.draws)
               3600000011%Z
               (fst (generate_nfc_token "U1" family 10%Z Scenario.draws
                       Scenario.issued))))
       EXPIRED_TOKEN.
Proof.
  assert (F : lookup_token (generate_token 32 Scenario.draws) Scenario.issued
              = []) by reflexivity.
  split; [exact F|].
  destruct (issued_token_validates "U1" family 10%Z 3600000010%Z
              Scenario.draws Scenario.issued _ eq_refl F) as (_ & A & _).
  destruct (issued_token_validates "U1" family 10%Z 3600000011%Z
              Scenario.draws Scenario.issued _ eq_refl F) as (_ & _ & B).
  split.
  - destruct (A ltac:(simpl; lia)) as (p & Hp & _). now exists p.
  - apply B. simpl. lia.
Defined.

(** Property X8.  Issue, then redeem.  When no active token already
    carries the generated value, a redemption of the returned token by
    another user who is not yet connected to the issuer, up to and
    including the returned [expires_at], succeeds: it appends one
    connection from the redeemer to the issuer, typed by the profile type of
    the token, and leaves no active token with that value. *)
Theorem issued_token_redeems
    (owner redeemer : string) (ty : ProfileType) (now later : datetime)
    (rnd : nat -> nat) (s : Store) (resp : NFCTokenResponse) :
  snd (generate_nfc_token owner ty now rnd s) = Ok resp ->
  lookup_token (token resp) s = [] ->
  redeemer <> owner ->
  ~ connected redeemer owner s ->
  (later <= expires_at resp)%Z ->
  let s1 := fst (generate_nfc_token owner ty now rnd s) in
  let c := connect_via_nfc (token resp) redeemer later s1 in
  succeeds (snd c)
  /\ connections (fst c)
     = connections s ++ [mkConnection (S (next_id s)) redeemer owner ty]
  /\ connected redeemer owner (fst c)
  /\ lookup_token (token resp) (fst c) = [].
Proof.
  intros Hok Hfresh Hne Hconn Hl s1 c.
  destruct (generate_nfc_token_ok _ _ _ _ _ _ Hok) as [Hp ->].
  cbn [token expires_at] in *.
  pose proof (lookup_issued_token owner ty now rnd s Hp Hfresh) as Hlook.
  fold s1 in Hlook.
  assert (Hc1 : connections s1 = connections s)
    by apply generate_nfc_token_frame.
  assert (Hn1 : next_id s1 = S (next_id s)).
  { unfold s1. rewrite generate_nfc_token_eq. unfold has_profile in Hp.
    destruct (SupabaseCRUD.read (profile_query owner ty) (profiles s));
      [contradiction|].
    cbn [fst bump_next_id with_nfc_tokens next_id].
    now destruct (deactivate_each_frame (active_tokens owner ty s) s)
      as (_ & _ & ->). }
  assert (Hconn1 : ~ connected redeemer owner s1).
  { intros (x & Hin & Hx). apply Hconn. exists x. now rewrite <- Hc1. }
  assert (Hc : c =
    (deactivated (next_id s)
       (bump_next_id
          (with_connections
             (connections s
              ++ [mkConnection (S (next_id s)) redeemer owner ty]) s1)),
     Ok (mkConnectResponse "Connection created successfully"
           (Some (mkConnection (S (next_id s)) redeemer owner ty))
           (hd_error
              (SupabaseCRUD.read (profile_query owner ty) (profiles s1)))))).
  { unfold c. rewrite connect_via_nfc_eq, Hlook.
    cbn [tk_user_id tk_expires_at tk_profile_type tk_id].
    apply String.eqb_neq in Hne. rewrite Hne.
    apply Z.ltb_ge in Hl. rewrite Hl.
    apply connection_read_nil in Hconn1. rewrite Hconn1.
    now rewrite Hc1, Hn1. }
  rewrite Hc. cbn [fst snd]. split; [eexists; reflexivity|].
  split; [reflexivity|]. split.
  - eexists. split; [simpl; apply in_or_app; right; now left|].
    split; reflexivity.
  - rewrite lookup_token_deactivated.
    change (lookup_token (generate_token 32 rnd) (bump_next_id _))
      with (lookup_token (generate_token 32 rnd) s1).
    rewrite Hlook. cbn [filter tk_id]. now rewrite Nat.eqb_refl.
Qed.

Lemma issued_token_redeems_witness :
  lookup_token (generate_token 32 Scenario.draws) Scenario.issued = []
  /\ ~ connected "U2" "U1" Scenario.issued
  /\ connections
       (fst (connect_via_nfc (generate_token 32 Scenario.draws) "U2"
               3600000010%Z
               (fst (generate_nfc_token "U1" family 10%Z Scenario.draws
                       Scenario.issued))))
     = [mkConnection 9 "U2" "U1" family].
Proof.
  assert (F : lookup_token (generate_token 32 Scenario.draws) Scenario.issued
              = []) by reflexivity.
  assert (N : ~ connected "U2" "U1" Scenario.issued)
    by (intros (c & [] & _)).
  split; [exact F|]. split; [exact N|].
  destruct (issued_token_redeems "U1" "U2" family 10%Z 3600000010%Z
              Scenario.draws Scenario.issued _ eq_refl F) as (_ & A & _).
  - discriminate.
  - exact N.
  - simpl. lia.
  - exact A.
Defined.

(** ** Supersession *)

(** Property X9.  Issuing a token supersedes the older ones of the pair:
    when the active tokens carrying the value [old] all belong to the pair
    [(owner, ty)] and the generated value differs from [old], then after
    the issuance no active token carries [old], and every validation or
    redemption with [old] answers [INVALID_TOKEN]. *)
Theorem superseded_token_is_invalid
    (owner : string) (ty : ProfileType) (now : datetime) (rnd : nat -> nat)
    (s : Store) (old : string) :
  has_profile owner ty s ->
  (forall t, In t (lookup_token old s) ->
             tk_user_id t = owner /\ tk_profile_type t = ty) ->
  old <> generate_token 32 rnd ->
  let s1 := fst (generate_nfc_token owner ty now rnd s) in
  lookup_token old s1 = []
  /\ forall (later : datetime) (redeemer : string),
       fails_with (snd (validate_nfc_token old later s1)) INVALID_TOKEN
       /\ fails_with (snd (connect_via_nfc old redeemer later s1))
            INVALID_TOKEN.
Proof.
  intros Hp Hpair Hne s1.
  assert (Hgone : lookup_token old s1 = []).
  { unfold s1, lookup_token at 1, SupabaseCRUD.read.
    rewrite (generate_nfc_token_tokens _ _ _ _ _ Hp), filter_app.
    rewrite filter_map_nil.
    - cbn [filter app]. unfold token_query at 1. cbn [tk_token].
      apply not_eq_sym in Hne. apply String.eqb_neq in Hne. now rewrite Hne.
    - intros t Hin. destruct (token_query old t) eqn:Q;
        [|now apply token_query_deactivation].
      assert (Hl : In t (lookup_token old s)).
      { unfold lookup_token, SupabaseCRUD.read. apply filter_In. now split. }
      destruct (Hpair t Hl) as [Hu Ht].
      apply lookup_token_In in Hl. destruct Hl as (_ & _ & Hact).
      assert (Hs : superseded_by (active_tokens owner ty s) t = true).
      { unfold superseded_by. apply existsb_exists. exists (tk_id t).
        split; [|apply Nat.eqb_refl].
        apply in_map. apply active_tokens_In. auto. }
      rewrite Hs. apply token_query_set_inactive. }
  split; [exact Hgone|]. intros later redeemer.
  rewrite validate_nfc_token_eq, connect_via_nfc_eq, Hgone.
  split; eexists; reflexivity.
Qed.

Lemma superseded_token_is_invalid_witness :
  has_profile "U1" family Scenario.issued
  /\ lookup_token "T1" Scenario.issued = [Scenario.T1_row]
  /\ fails_with
       (snd (connect_via_nfc "T1" "U2" 500%Z
               (fst (generate_nfc_token "U1" family 10%Z Scenario.draws
                       Scenario.issued))))
       INVALID_TOKEN.
Proof.
  assert (P : has_profile "U1" family Scenario.issued)
    by (intro H; discriminate H).
  split; [exact P|]. split; [reflexivity|].
  destruct (superseded_token_is_invalid "U1" family 10%Z Scenario.draws
              Scenario.issued "T1" P) as [_ A].
  - intros t [<-|[]]. split; reflexivity.
  - intro H. vm_compute in H. discriminate.
  - exact (proj2 (A 500%Z "U2")).
Defined.

(** ** Distinct draws give distinct tokens *)

Lemma alphabet_NoDup :
  NoDup (list_ascii_of_string (ascii_letters ++ digits)%string).
Proof.
  apply (NoDup_map_inv nat_of_ascii). vm_compute.
  repeat (constructor; [simpl; intuition discriminate|]). constructor.
Qed.

Lemma string_of_list_ascii_inj l l' :
  string_of_list_ascii l = string_of_list_ascii l' -> l = l'.
Proof.
  intro H. rewrite <- (list_ascii_of_string_of_list_ascii l),
    <- (list_ascii_of_string_of_list_ascii l'). now rewrite H.
Qed.

(** Property X10.  [generate_token] loses nothing of the draws: two runs
    return the same token exactly when, at each of the [length] positions,
    the draws agree modulo 62.  The 62 characters of the alphabet are
    pairwise different, so [length] characters carry [62 ^ length]
    different tokens. *)
Theorem generate_token_injective (length : nat) (rnd rnd' : nat -> nat) :
  generate_token length rnd = generate_token length rnd'
  <-> forall i, i < length -> rnd i mod 62 = rnd' i mod 62.
Proof.
  unfold generate_token. split.
  - intros H i Hi. apply string_of_list_ascii_inj in H.
    assert (E : secrets_choice (ascii_letters ++ digits)%string (rnd i)
                = secrets_choice (ascii_letters ++ digits)%string (rnd' i)).
    { apply (ext_in_map H). apply in_seq. lia. }
    unfold secrets_choice in E.
    change (String.length (ascii_letters ++ digits)%string) with 62 in E.
    pose proof alphabet_NoDup as Hnd.
    rewrite (NoDup_nth _ zero) in Hnd. apply Hnd in E;
      [exact E| |];
      change (List.length
                (list_ascii_of_string (ascii_letters ++ digits)%string))
        with 62;
      apply Nat.mod_upper_bound; discriminate.
  - intro H. f_equal. apply map_ext_in. intros i Hi. apply in_seq in Hi.
    unfold secrets_choice.
    change (String.length (ascii_letters ++ digits)%string) with 62.
    rewrite H by lia. reflexivity.
Qed.

(** ** Listing profiles *)

Lemma get_type_specific_details_eq ty id db :
  get_type_specific_details ty id db
  = (db, Returned (hd_error (filter (eq_id pd_profile_id id)
                               (detail_rows ty db)))).
Proof. destruct ty; reflexivity. Qed.

Lemma get_enriched_profile_eq p u db :
  get_enriched_profile p u db = (db, Returned (own_view db u p)).
Proof.
  unfold get_enriched_profile, h_bind.
  rewrite get_type_specific_details_eq. reflexivity.
Qed.

Lemma h_map_enriched u ps db :
  h_map (fun profile => get_enriched_profile profile u) ps db
  = (db, Returned (map (own_view db u) ps)).
Proof.
  induction ps as [|p ps IH]; [reflexivity|].
  cbn [h_map map]. unfold h_bind at 1. rewrite get_enriched_profile_eq.
  unfold h_bind at 1. rewrite IH. reflexivity.
Qed.

Lemma get_user_profiles_eq u db :
  get_user_profiles u db
  = (db, Returned (map (own_view db u) (profiles_of u db))).
Proof.
  unfold get_user_profiles, h_bind, CRUD.read. cbn [rows profile_crud].
  apply h_map_enriched.
Qed.

Lemma for_connected_profiles_eq c u ps result db :
  for_connected_profiles c u ps result db
  = (db, Returned (result ++ map (connection_view db c) ps)).
Proof.
  revert result. induction ps as [|p ps IH]; intro result.
  - simpl. now rewrite app_nil_r.
  - cbn [for_connected_profiles map]. unfold h_bind at 1.
    rewrite get_enriched_profile_eq, IH. cbn [own_view pv_profile pv_details].
    now rewrite <- app_assoc.
Qed.

Lemma for_connections_eq u cs result db :
  for_connections u cs result db
  = (db, Returned
           (result
            ++ flat_map
                 (fun c =>
                    map (connection_view db c)
                      (profiles_of (cn_connected_user_id c) db)) cs)).
Proof.
  revert result. induction cs as [|c cs IH]; intro result.
  - simpl. now rewrite app_nil_r.
  - cbn [for_connections flat_map]. unfold h_bind at 1, CRUD.read at 1.
    cbn [rows profile_crud]. unfold h_bind at 1.
    rewrite for_connected_profiles_eq, IH. now rewrite <- app_assoc.
Qed.

Lemma get_connection_profiles_eq u db :
  get_connection_profiles u db
  = (db, Returned
           (flat_map
              (fun c =>
                 map (connection_view db c)
                   (profiles_of (cn_connected_user_id c) db))
              (filter (eq_text cn_user_id u) (connections (db_store db))))).
Proof.
  unfold get_connection_profiles, h_bind, CRUD.read.
  cbn [rows connections_crud]. apply for_connections_eq.
Qed.

Lemma list_profiles_eq str inc u db :
  list_profiles str inc u db
  = (db, Returned
           (map (own_view db u) (profiles_of u db)
            ++ if inc then
                 flat_map
                   (fun c =>
                      map (connection_view db c)
                        (profiles_of (cn_connected_user_id c) db))
                   (filter (eq_text cn_user_id u) (connections (db_store db)))
               else [])).
Proof.
  unfold list_profiles, h_except, h_bind. rewrite get_user_profiles_eq.
  destruct inc.
  - now rewrite get_connection_profiles_eq.
  - cbn [h_ret]. now rewrite app_nil_r.
Qed.

Lemma profiles_of_In u db p :
  In p (profiles_of u db) <-> In p (profiles (db_store db)) /\ pf_user_id p = u.
Proof.
  unfold profiles_of, eq_text. now rewrite filter_In, String.eqb_eq.
Qed.

(** Property X11.  [list_profiles] never fails and changes nothing.  Its
    answer starts with the caller's own profiles, in table order, each
    marked [is_own]; what follows, present only when connections are asked
    for, is marked not [is_own] and belongs to a user the caller holds a
    connection to, whose identifier it carries. *)
Theorem list_profiles_answer
    (str : string -> string -> string) (include_connections : bool)
    (user_id : string) (db : Database) :
  exists own shared,
    list_profiles str include_connections user_id db
    = (db, Returned (own ++ shared))
    /\ map pv_profile own = profiles_of user_id db
    /\ Forall (fun v => pv_is_own v = true /\ pv_connection_id v = None) own
    /\ Forall
         (fun v =>
            pv_is_own v = false
            /\ exists c, In c (connections (db_store db))
                         /\ cn_user_id c = user_id
                         /\ pf_user_id (pv_profile v) = cn_connected_user_id c
                         /\ pv_connection_id v = Some (cn_id c)) shared
    /\ (include_connections = false -> shared = []).
Proof.
  rewrite list_profiles_eq. eexists _, _. split; [reflexivity|].
  split; [|split; [|split]].
  - rewrite map_map. cbn [own_view pv_profile]. apply map_id.
  - apply Forall_forall. intros v Hv. apply in_map_iff in Hv.
    destruct Hv as (p & <- & Hp). apply profiles_of_In in Hp.
    destruct Hp as [_ Hu]. cbn [own_view pv_is_own pv_connection_id].
    split; [now apply String.eqb_eq|reflexivity].
  - destruct include_connections; [|constructor].
    apply Forall_forall. intros v Hv. apply in_flat_map in Hv.
    destruct Hv as (c & Hc & Hv). apply filter_In in Hc.
    destruct Hc as [Hc Hu]. apply String.eqb_eq in Hu.
    apply in_map_iff in Hv. destruct Hv as (p & <- & Hp).
    apply profiles_of_In in Hp. destruct Hp as [_ Hp].
    split; [reflexivity|]. exists c. auto.
  - now intros ->.
Qed.

(** Property X12.  A connection opens every profile of the connected
    user, not only the profile of the type the connection was made through:
    for each connection the caller holds and each profile of the connected
    user, of whatever type, [list_profiles] with connections lists that
    profile with its details. *)
Theorem connection_lists_every_profile
    (str : string -> string -> string) (user_id : string) (db : Database)
    (c : Connection) (p : Profile) :
  In c (connections (db_store db)) ->
  cn_user_id c = user_id ->
  In p (profiles (db_store db)) ->
  pf_user_id p = cn_connected_user_id c ->
  exists views,
    snd (list_profiles str true user_id db) = Returned views
    /\ In (mkProfileView p (details_of p db) false (Some (cn_id c))
             (Some (cn_connection_type c))) views.
Proof.
  intros Hc Hu Hp Hpu. rewrite list_profiles_eq. cbn [snd].
  eexists. split; [reflexivity|]. apply in_or_app. right.
  apply in_flat_map. exists c. split.
  - apply filter_In. split; [assumption|]. now apply String.eqb_eq.
  - apply (in_map (connection_view db c)). now apply profiles_of_In.
Qed.

Lemma connection_lists_every_profile_witness :
  In Household.U2_to_U1 (connections (db_store Home.db))
  /\ cn_connection_type Household.U2_to_U1 = work
  /\ pf_type Household.U1_family = family
  /\ exists views,
       snd (list_profiles Home.http_str true "U2" Home.db) = Returned views
       /\ In (mkProfileView Household.U1_family (Some Home.U1_family_details)
                false (Some 3) (Some work)) views.
Proof.
  assert (C : In Household.U2_to_U1 (connections (db_store Home.db)))
    by now left.
  split; [exact C|]. split; [reflexivity|]. split; [reflexivity|].
  apply (connection_lists_every_profile Home.http_str "U2" Home.db
           Household.U2_to_U1 Household.U1_family C eq_refl).
  - now left.
  - reflexivity.
Defined.

(** ** Reading one profile *)

Lemma get_profile_eq id u db :
  get_profile id u db =
  match filter (eq_id pf_id id) (profiles (db_store db)) with
  | [] => (db, Raised (ContactsError "PROFILE_NOT_FOUND" "Profile not found"))
  | p :: _ =>
      if String.eqb (pf_user_id p) u then
        match filter (eq_id pd_profile_id id) (detail_rows (pf_type p) db) with
        | [] =>
            (db, Raised (ContactsError "PROFILE_RETRIEVAL_FAILED"
                           "Failed to retrieve profile"))
        | d :: _ => (db, Returned (p, d))
        end
      else
        (db, Raised (ContactsError "UNAUTHORIZED"
                       "Not authorized to access this profile"))
  end.
Proof.
  unfold get_profile, h_except, h_bind, CRUD.get_by_id.
  cbn [rows profile_crud].
  destruct (filter (eq_id pf_id id) (profiles (db_store db))) as [|p rest];
    [reflexivity|].
  cbn [hd_error]. destruct (String.eqb (pf_user_id p) u); [|reflexivity].
  cbn [negb]. destruct (pf_type p); cbn [rows family_profile_crud
    friends_profile_crud work_profile_crud acquaintances_profile_crud
    detail_rows];
    match goal with
    | |- context [filter ?q ?l] => destruct (filter q l); reflexivity
    end.
Qed.

Lemma filter_head_In {A : Type} (q : A -> bool) (l : list A) (a : A)
    (rest : list A) :
  filter q l = a :: rest -> In a l /\ q a = true.
Proof.
  intro H. apply filter_In. rewrite H. now left.
Qed.

(** Property X13.  [get_profile] only ever hands out a profile of the
    caller: an answer is a row of [profiles] with the requested [id] whose
    [user_id] is the caller, with a detail row of that profile.  When the
    row found belongs to someone else the call fails with [UNAUTHORIZED],
    whether or not the caller holds a connection to the owner; when no row
    has the [id] it fails with [PROFILE_NOT_FOUND].  The database is never
    changed. *)
Theorem get_profile_authorization (profile_id : nat) (user_id : string)
    (db : Database) :
  (forall r, snd (get_profile profile_id user_id db) = Returned r ->
             In (fst r) (profiles (db_store db))
             /\ pf_id (fst r) = profile_id
             /\ pf_user_id (fst r) = user_id
             /\ pd_profile_id (snd r) = profile_id)
  /\ (forall p rest,
        filter (eq_id pf_id profile_id) (profiles (db_store db)) = p :: rest ->
        pf_user_id p <> user_id ->
        h_fails_with (snd (get_profile profile_id user_id db)) "UNAUTHORIZED")
  /\ (filter (eq_id pf_id profile_id) (profiles (db_store db)) = [] ->
      h_fails_with (snd (get_profile profile_id user_id db))
        "PROFILE_NOT_FOUND")
  /\ fst (get_profile profile_id user_id db) = db.
Proof.
  rewrite get_profile_eq.
  destruct (filter (eq_id pf_id profile_id) (profiles (db_store db)))
    as [|p rest] eqn:F.
  - split; [intros r H; discriminate|]. split; [intros ? ? H; discriminate|].
    split; [intros _; eexists; reflexivity|reflexivity].
  - apply filter_head_In in F. destruct F as [Hin Hid].
    unfold eq_id in Hid. apply Nat.eqb_eq in Hid.
    destruct (String.eqb_spec (pf_user_id p) user_id) as [E|E].
    + destruct (filter (eq_id pd_profile_id profile_id)
                  (detail_rows (pf_type p) db)) as [|d ds] eqn:D.
      * split; [intros r H; discriminate|].
        split; [intros ? ? H; injection H as <- _; contradiction|].
        split; [discriminate|reflexivity].
      * apply filter_head_In in D. destruct D as [_ Hd].
        unfold eq_id in Hd. apply Nat.eqb_eq in Hd.
        split; [intros r H; injection H as <-; auto|].
        split; [intros ? ? H; injection H as <- _; contradiction|].
        split; [discriminate|reflexivity].
    + split; [intros r H; discriminate|].
      split; [intros ? ? _ _; eexists; reflexivity|].
      split; [discriminate|reflexivity].
Qed.

(** Property X14.  A profile without its detail row is listed but cannot
    be fetched: when the caller owns the profile found under [profile_id]
    and the table of its type holds no row for it, [get_profile] fails with
    [PROFILE_RETRIEVAL_FAILED], while [list_profiles] lists the same
    profile, with no details. *)
Theorem profile_without_details
    (str : string -> string -> string) (profile_id : nat) (user_id : string)
    (db : Database) (p : Profile) (rest : list Profile) :
  filter (eq_id pf_id profile_id) (profiles (db_store db)) = p :: rest ->
  pf_user_id p = user_id ->
  filter (eq_id pd_profile_id profile_id) (detail_rows (pf_type p) db) = [] ->
  h_fails_with (snd (get_profile profile_id user_id db))
    "PROFILE_RETRIEVAL_FAILED"
  /\ exists views,
       snd (list_profiles str false user_id db) = Returned views
       /\ In (mkProfileView p None true None None) views.
Proof.
  intros F Hu D. split.
  - rewrite get_profile_eq, F. apply String.eqb_eq in Hu. rewrite Hu, D.
    eexists; reflexivity.
  - rewrite list_profiles_eq. cbn [snd]. eexists. split; [reflexivity|].
    rewrite app_nil_r. apply filter_head_In in F. destruct F as [Hin Hid].
    unfold eq_id in Hid. apply Nat.eqb_eq in Hid.
    assert (E : own_view db user_id p = mkProfileView p None true None None).
    { unfold own_view, details_of. rewrite Hid, D.
      apply String.eqb_eq in Hu. now rewrite Hu. }
    rewrite <- E. apply in_map. now apply profiles_of_In.
Qed.

Lemma profile_without_details_witness :
  filter (eq_id pf_id 9) (profiles (db_store Home.db)) = [Household.U1_work]
  /\ h_fails_with (snd (get_profile 9 "U1" Home.db)) "PROFILE_RETRIEVAL_FAILED"
  /\ exists views,
       snd (list_profiles Home.http_str false "U1" Home.db) = Returned views
       /\ In (mkProfileView Household.U1_work None true None None) views.
Proof.
  assert (F : filter (eq_id pf_id 9) (profiles (db_store Home.db))
              = [Household.U1_work]) by reflexivity.
  split; [exact F|].
  exact (profile_without_details Home.http_str 9 "U1" Home.db
           Household.U1_work [] F eq_refl eq_refl).
Defined.

(** ** Deleting a profile *)

Lemma erase_profile_store ty id db :
  db_store (erase_profile ty id db)
  = with_profiles
      (filter (fun q => negb (eq_id pf_id id q)) (profiles (db_store db)))
      (db_store db).
Proof. destruct ty; reflexivity. Qed.

Lemma erase_profile_details ty id db ty' :
  detail_rows ty' (erase_profile ty id db)
  = if ProfileType_eqb ty' ty then
      filter (fun d => negb (eq_id pd_profile_id id d)) (detail_rows ty db)
    else detail_rows ty' db.
Proof. destruct ty, ty'; reflexivity. Qed.

Lemma delete_profile_by_type_eq ty id db :
  delete_profile_by_type ty id db
  = (fst (delete_profile_by_type ty id db), Returned tt).
Proof. destruct ty; reflexivity. Qed.

Lemma delete_profile_by_type_store ty id db :
  db_store (fst (delete_profile_by_type ty id db)) = db_store db.
Proof. destruct ty; reflexivity. Qed.

Lemma delete_profile_eq id u db :
  delete_profile id u db =
  match filter (eq_id pf_id id) (profiles (db_store db)) with
  | [] => (db, Raised (ContactsError "PROFILE_NOT_FOUND" "Profile not found"))
  | p :: _ =>
      if String.eqb (pf_user_id p) u then
        (erase_profile (pf_type p) id db,
         Returned "Profile deleted successfully")
      else
        (db, Raised (ContactsError "UNAUTHORIZED"
                       "Not authorized to delete this profile"))
  end.
Proof.
  unfold delete_profile, h_except, h_bind at 1, CRUD.get_by_id.
  cbn [rows profile_crud].
  destruct (filter (eq_id pf_id id) (profiles (db_store db)))
    as [|p rest] eqn:F; [reflexivity|].
  cbn [hd_error]. destruct (String.eqb (pf_user_id p) u); [|reflexivity].
  cbn [negb]. unfold h_bind at 1. rewrite delete_profile_by_type_eq.
  unfold h_bind, CRUD.delete, erase_profile, CRUD.delete.
  cbn [rows profile_crud fst].
  rewrite delete_profile_by_type_store, F. reflexivity.
Qed.

(** Property X15.  [delete_profile] on the row found under [profile_id]:
    when the row belongs to another user the call fails with
    [UNAUTHORIZED] and changes nothing; when it belongs to the caller the
    call succeeds, removes every [profiles] row with that [id] and the
    detail rows for that [id] in the table of the profile's type, and
    touches nothing else: tokens, connections and the other detail tables
    stay as they were. *)
Theorem delete_profile_effect (profile_id : nat) (user_id : string)
    (db : Database) (p : Profile) (rest : list Profile) :
  filter (eq_id pf_id profile_id) (profiles (db_store db)) = p :: rest ->
  let r := delete_profile profile_id user_id db in
  (pf_user_id p <> user_id ->
   h_fails_with (snd r) "UNAUTHORIZED" /\ fst r = db)
  /\ (pf_user_id p = user_id ->
      snd r = Returned "Profile deleted successfully"
      /\ profiles (db_store (fst r))
         = filter (fun q => negb (Nat.eqb (pf_id q) profile_id))
             (profiles (db_store db))
      /\ detail_rows (pf_type p) (fst r)
         = filter (fun d => negb (Nat.eqb (pd_profile_id d) profile_id))
             (detail_rows (pf_type p) db)
      /\ (forall ty, ty <> pf_type p ->
                     detail_rows ty (fst r) = detail_rows ty db)
      /\ nfc_tokens (db_store (fst r)) = nfc_tokens (db_store db)
      /\ connections (db_store (fst r)) = connections (db_store db)).
Proof.
  intros F r. unfold r. rewrite delete_profile_eq, F. split.
  - intro Hne. apply String.eqb_neq in Hne. rewrite Hne.
    split; [eexists|]; reflexivity.
  - intro He. apply String.eqb_eq in He. rewrite He. cbn [fst snd].
    rewrite erase_profile_store. split; [reflexivity|].
    split; [reflexivity|]. split.
    + now rewrite erase_profile_details, ProfileType_eqb_refl.
    + split; [|split; reflexivity].
      intros ty Hty. rewrite erase_profile_details.
      destruct (ProfileType_eqb ty (pf_type p)) eqn:E; [|reflexivity].
      apply ProfileType_eqb_eq in E. contradiction.
Qed.

Lemma delete_profile_effect_witness :
  filter (eq_id pf_id 7) (profiles (db_store Home.db)) = [Household.U1_family]
  /\ h_fails_with (snd (delete_profile 7 "U2" Home.db)) "UNAUTHORIZED"
  /\ fst (delete_profile 7 "U2" Home.db) = Home.db
  /\ profiles (db_store (fst (delete_profile 7 "U1" Home.db)))
     = [Household.U1_work; Household.U2_friends]
  /\ detail_rows family (fst (delete_profile 7 "U1" Home.db)) = [].
Proof.
  assert (F : filter (eq_id pf_id 7) (profiles (db_store Home.db))
              = [Household.U1_family]) by reflexivity.
  split; [exact F|].
  destruct (delete_profile_effect 7 "U2" Home.db Household.U1_family [] F)
    as [A _].
  destruct (delete_profile_effect 7 "U1" Home.db Household.U1_family [] F)
    as [_ B].
  destruct (A ltac:(simpl; discriminate)) as [A1 A2].
  destruct (B eq_refl) as (_ & B2 & B3 & _).
  split; [exact A1|]. split; [exact A2|]. split; [exact B2|exact B3].
Defined.

Lemma filter_filter_comm {A : Type} (f g : A -> bool) (l : list A) :
  filter f (filter g l) = filter g (filter f l).
Proof.
  induction l as [|a l IH]; [reflexivity|].
  simpl. destruct (f a) eqn:Ef, (g a) eqn:Eg; simpl; rewrite ?Ef, ?Eg, IH;
    reflexivity.
Qed.

(** Property X16.  Deleting a profile leaves its tokens in circulation.
    Let the caller own exactly one profile of some type and delete it, and
    let an active, unexpired token of the caller for that type be
    outstanding.  Afterwards a validation of the token fails with
    [PROFILE_NOT_FOUND] and a new issuance for the type fails with
    [PROFILE_NOT_FOUND], but a redemption by another user who is not yet
    connected still succeeds and creates the connection, answering with no
    profile. *)
Theorem deleted_profile_leaves_token_redeemable
    (profile_id : nat) (user_id : string) (db : Database) (p : Profile)
    (rest : list Profile) (token_value redeemer : string) (now : datetime)
    (rnd : nat -> nat) (td : NFCToken) (others : list NFCToken) :
  filter (eq_id pf_id profile_id) (profiles (db_store db)) = p :: rest ->
  pf_user_id p = user_id ->
  SupabaseCRUD.read (profile_query user_id (pf_type p)) (profiles (db_store db))
  = [p] ->
  lookup_token token_value (db_store db) = td :: others ->
  tk_user_id td = user_id ->
  tk_profile_type td = pf_type p ->
  (now <= tk_expires_at td)%Z ->
  redeemer <> user_id ->
  ~ connected redeemer user_id (db_store db) ->
  let s' := db_store (fst (delete_profile profile_id user_id db)) in
  fails_with (snd (validate_nfc_token token_value now s')) PROFILE_NOT_FOUND
  /\ fails_with (snd (generate_nfc_token user_id (pf_type p) now rnd s'))
       PROFILE_NOT_FOUND
  /\ snd (connect_via_nfc token_value redeemer now s')
     = Ok (mkConnectResponse "Connection created successfully"
             (Some (mkConnection (next_id (db_store db)) redeemer user_id
                      (pf_type p)))
             None).
Proof.
  intros F Hu Hone Hlook Htu Htt Hnow Hne Hconn s'.
  assert (Hs' : s' = with_profiles
                       (filter (fun q => negb (eq_id pf_id profile_id q))
                          (profiles (db_store db))) (db_store db)).
  { unfold s'. rewrite delete_profile_eq, F.
    apply String.eqb_eq in Hu. rewrite Hu. cbn [fst].
    apply erase_profile_store. }
  assert (Hnone : SupabaseCRUD.read (profile_query user_id (pf_type p))
                    (profiles s') = []).
  { rewrite Hs'. cbn [with_profiles profiles]. unfold SupabaseCRUD.read in *.
    rewrite filter_filter_comm, Hone. cbn [filter].
    apply filter_head_In in F. destruct F as [_ ->]. reflexivity. }
  assert (Hlook' : lookup_token token_value s' = td :: others)
    by (rewrite Hs'; exact Hlook).
  assert (Hconn' : SupabaseCRUD.read (connection_query redeemer user_id)
                     (connections s') = []).
  { rewrite Hs'. cbn [with_profiles connections].
    now apply connection_read_nil. }
  assert (Hn' : next_id s' = next_id (db_store db)) by now rewrite Hs'.
  apply Z.ltb_ge in Hnow. apply String.eqb_neq in Hne.
  split; [|split].
  - rewrite validate_nfc_token_eq, Hlook', Hnow, Htu, Htt, Hnone.
    eexists; reflexivity.
  - rewrite generate_nfc_token_eq, Hnone. eexists; reflexivity.
  - rewrite connect_via_nfc_eq, Hlook', Htu, Hne, Hnow, Hconn', Htt, Hnone,
      Hn'.
    reflexivity.
Qed.

Lemma deleted_profile_leaves_token_redeemable_witness :
  filter (eq_id pf_id 7) (profiles (db_store Home.db)) = [Household.U1_family]
  /\ lookup_token "T1" (db_store Home.db) = [Household.T1_row]
  /\ fails_with
       (snd (validate_nfc_token "T1" 500%Z
               (db_store (fst (delete_profile 7 "U1" Home.db)))))
       PROFILE_NOT_FOUND
  /\ snd (connect_via_nfc "T1" "U3" 500%Z
            (db_store (fst (delete_profile 7 "U1" Home.db))))
     = Ok (mkConnectResponse "Connection created successfully"
             (Some (mkConnection 12 "U3" "U1" family)) None).
Proof.
  assert (F : filter (eq_id pf_id 7) (profiles (db_store Home.db))
              = [Household.U1_family]) by reflexivity.
  assert (L : lookup_token "T1" (db_store Home.db) = [Household.T1_row])
    by reflexivity.
  split; [exact F|]. split; [exact L|].
  destruct (deleted_profile_leaves_token_redeemable 7 "U1" Home.db
              Household.U1_family [] "T1" "U3" 500%Z Scenario.draws
              Household.T1_row [] F eq_refl eq_refl L eq_refl eq_refl)
    as (A & _ & B).
  - simpl. lia.
  - discriminate.
  - intros (c & [<-|[]] & Hc & _). simpl in Hc. discriminate.
  - split; [exact A|exact B].
Defined.

(** ** Deleting an account *)

Lemma filter_filter_and {A : Type} (f g : A -> bool) (l : list A) :
  filter f (filter g l) = filter (fun x => g x && f x) l.
Proof.
  induction l as [|a l IH]; [reflexivity|].
  simpl. destruct (g a); simpl; [destruct (f a)|]; now rewrite IH.
Qed.

Lemma h_for_erase ps db :
  h_for ps
    (fun profile =>
       (delete_profile_by_type (pf_type profile) (pf_id profile) ;;;
        CRUD.delete profile_crud (eq_id pf_id (pf_id profile)) ;;;
        h_ret tt)%handler) db
  = (erase_profiles ps db, Returned tt).
Proof.
  revert db. induction ps as [|p ps IH]; intro db; [reflexivity|].
  cbn [h_for erase_profiles fold_left]. unfold h_bind at 1.
  unfold h_bind at 1. rewrite delete_profile_by_type_eq.
  unfold h_bind at 1. apply IH.
Qed.

Lemma erase_profiles_store ps db :
  db_store (erase_profiles ps db)
  = with_profiles
      (filter (fun q => negb (existsb (Nat.eqb (pf_id q)) (map pf_id ps)))
         (profiles (db_store db)))
      (db_store db).
Proof.
  revert db. induction ps as [|p ps IH]; intro db.
  - simpl. destruct (db_store db) as [ts cs qs n]. unfold with_profiles.
    simpl. f_equal. symmetry. apply forallb_filter_id.
    now apply forallb_forall.
  - cbn [erase_profiles fold_left] in *. rewrite IH, erase_profile_store.
    unfold with_profiles. cbn [nfc_tokens connections profiles next_id].
    f_equal. rewrite filter_filter_and. apply filter_ext. intro q.
    unfold eq_id. cbn [map existsb].
    now rewrite negb_orb.
Qed.

Lemma erase_profiles_details ps db ty :
  detail_rows ty (erase_profiles ps db)
  = filter
      (fun d =>
         negb (existsb
                 (fun p =>
                    ProfileType_eqb ty (pf_type p)
                    && Nat.eqb (pd_profile_id d) (pf_id p)) ps))
      (detail_rows ty db).
Proof.
  revert db. induction ps as [|p ps IH]; intro db.
  - simpl. symmetry. apply forallb_filter_id. now apply forallb_forall.
  - cbn [erase_profiles fold_left] in *. rewrite IH, erase_profile_details.
    cbn [existsb].
    destruct (ProfileType_eqb ty (pf_type p)) eqn:E.
    + apply ProfileType_eqb_eq in E. subst ty.
      rewrite filter_filter_and. apply filter_ext. intro d.
      unfold eq_id. now rewrite negb_orb.
    + apply filter_ext. intro d. reflexivity.
Qed.

Lemma erased_account_store u db :
  db_store (erased_account u db)
  = mkStore
      (filter (fun t => negb (String.eqb (tk_user_id t) u))
         (nfc_tokens (db_store db)))
      (filter
         (fun c =>
            negb (String.eqb (cn_user_id c) u)
            && negb (String.eqb (cn_connected_user_id c) u))
         (connections (db_store db)))
      (filter
         (fun q =>
            negb (existsb (Nat.eqb (pf_id q))
                    (map pf_id (profiles_of u db))))
         (profiles (db_store db)))
      (next_id (db_store db)).
Proof.
  unfold erased_account, CRUD.delete_many.
  cbn [fst rows set_rows nfc_crud connections_crud with_store db_store].
  rewrite erase_profiles_store.
  cbn [with_profiles with_nfc_tokens with_connections nfc_tokens connections
         profiles next_id].
  now rewrite filter_filter_and.
Qed.

Lemma erased_account_details u db ty :
  detail_rows ty (erased_account u db)
  = detail_rows ty (erase_profiles (profiles_of u db) db).
Proof. destruct ty; reflexivity. Qed.

Lemma delete_user_account_eq str admin u db :
  delete_user_account str admin u db
  = (erased_account u db,
     match admin u with
     | None =>
         Returned "User account and all associated data deleted successfully"
     | Some m =>
         Raised (ContactsError "ACCOUNT_DELETION_FAILED"
                   ("Failed to delete account: " ++ m)%string)
     end).
Proof.
  unfold delete_user_account, h_except, h_bind at 1, CRUD.read at 1.
  unfold h_bind at 1. cbn [rows profile_crud].
  fold (profiles_of u db). rewrite h_for_erase.
  unfold erased_account.
  destruct (admin u); reflexivity.
Qed.

(** Property X17.  [delete_user_account] erases the user's data whatever
    the identity provider answers: afterwards no profile, no token and no
    connection, in either direction, carries the user; no detail row refers
    to a profile the user had, in the table of that profile's type; the
    tokens and connections of the other users are exactly the ones that
    were there; and when [id] is a key of [profiles], so are the profiles
    of the other users. *)
Theorem delete_user_account_erases
    (str : string -> string -> string)
    (admin_delete_user : string -> option string) (user_id : string)
    (db : Database) :
  let db' := fst (delete_user_account str admin_delete_user user_id db) in
  (forall q, In q (profiles (db_store db')) ->
             pf_user_id q <> user_id /\ In q (profiles (db_store db)))
  /\ nfc_tokens (db_store db')
     = filter (fun t => negb (String.eqb (tk_user_id t) user_id))
         (nfc_tokens (db_store db))
  /\ connections (db_store db')
     = filter
         (fun c =>
            negb (String.eqb (cn_user_id c) user_id)
            && negb (String.eqb (cn_connected_user_id c) user_id))
         (connections (db_store db))
  /\ (forall ty d q,
        In d (detail_rows ty db') -> In q (profiles (db_store db)) ->
        pf_user_id q = user_id -> pf_type q = ty ->
        pd_profile_id d <> pf_id q)
  /\ (profile_ids_unique db ->
      profiles (db_store db')
      = filter (fun q => negb (String.eqb (pf_user_id q) user_id))
          (profiles (db_store db))).
Proof.
  intro db'. unfold db'. rewrite delete_user_account_eq. cbn [fst].
  rewrite erased_account_store. cbn [nfc_tokens connections profiles].
  split; [|split; [reflexivity|split; [reflexivity|split]]].
  - intros q Hq. apply filter_In in Hq. destruct Hq as [Hin Hq].
    split; [|exact Hin]. intro Hu.
    apply negb_true_iff in Hq.
    assert (Ht : existsb (Nat.eqb (pf_id q)) (map pf_id (profiles_of user_id db))
                 = true).
    { apply existsb_exists. exists (pf_id q). split; [|apply Nat.eqb_refl].
      apply in_map. now apply profiles_of_In. }
    congruence.
  - intros ty d q Hd Hq Hu Hty E.
    rewrite erased_account_details, erase_profiles_details in Hd.
    apply filter_In in Hd. destruct Hd as [_ Hd].
    apply negb_true_iff in Hd.
    assert (Ht : existsb
                   (fun p => ProfileType_eqb ty (pf_type p)
                             && Nat.eqb (pd_profile_id d) (pf_id p))
                   (profiles_of user_id db) = true).
    { apply existsb_exists. exists q. split; [now apply profiles_of_In|].
      rewrite Hty, ProfileType_eqb_refl, E. apply Nat.eqb_refl. }
    congruence.
  - intro Hids. unfold profile_ids_unique in Hids.
    apply filter_ext_in. intros q Hq. f_equal.
    destruct (String.eqb_spec (pf_user_id q) user_id) as [E|E].
    + apply existsb_exists. exists (pf_id q). split; [|apply Nat.eqb_refl].
      apply in_map. now apply profiles_of_In.
    + apply not_true_is_false. intro Ht. apply existsb_exists in Ht.
      destruct Ht as (i & Hi & Ei). apply Nat.eqb_eq in Ei. subst i.
      apply in_map_iff in Hi. destruct Hi as (q' & Hid & Hq').
      apply profiles_of_In in Hq'. destruct Hq' as [Hq' Hu'].
      assert (q' = q) by (eapply NoDup_map_eq; eassumption).
      subst q'. contradiction.
Qed.

(** Property X18.  Account deletion is not atomic.  The identity
    provider is called last; when it refuses, the request fails with
    [ACCOUNT_DELETION_FAILED], and the database is nevertheless the one a
    successful deletion leaves: the user's data are gone while the account
    remains. *)
Theorem delete_user_account_not_atomic
    (str : string -> string -> string)
    (admin_delete_user : string -> option string) (user_id : string)
    (db : Database) (message : string) :
  admin_delete_user user_id = Some message ->
  h_fails_with (snd (delete_user_account str admin_delete_user user_id db))
    "ACCOUNT_DELETION_FAILED"
  /\ fst (delete_user_account str admin_delete_user user_id db)
     = fst (delete_user_account str (fun _ => None) user_id db)
  /\ snd (delete_user_account str (fun _ => None) user_id db)
     = Returned "User account and all associated data deleted successfully".
Proof.
  intro H. rewrite !delete_user_account_eq, H.
  split; [eexists; reflexivity|]. split; reflexivity.
Qed.

Lemma delete_user_account_not_atomic_witness :
  h_fails_with
    (snd (delete_user_account Home.http_str (fun _ => Some "User not allowed")
            "U1" Home.db))
    "ACCOUNT_DELETION_FAILED"
  /\ db_store
       (fst (delete_user_account Home.http_str
               (fun _ => Some "User not allowed") "U1" Home.db))
     = mkStore [] [] [Household.U2_friends] 12.
Proof.
  destruct (delete_user_account_not_atomic Home.http_str
              (fun _ => Some "User not allowed") "U1" Home.db
              "User not allowed" eq_refl) as (A & B & _).
  split; [exact A|]. rewrite B. reflexivity.
Defined.

(** Property X19.  After an account deletion the user's tokens are dead:
    a token value that only tokens of the user carried names no token any
    more, so validating or redeeming it fails with [INVALID_TOKEN]. *)
Theorem deleted_account_tokens_are_invalid
    (str : string -> string -> string)
    (admin_delete_user : string -> option string) (user_id : string)
    (db : Database) (token_value : string) :
  (forall t, In t (lookup_token token_value (db_store db)) ->
             tk_user_id t = user_id) ->
  let s' :=
    db_store (fst (delete_user_account str admin_delete_user user_id db)) in
  lookup_token token_value s' = []
  /\ forall (now : datetime) (redeemer : string),
       fails_with (snd (validate_nfc_token token_value now s')) INVALID_TOKEN
       /\ fails_with (snd (connect_via_nfc token_value redeemer now s'))
            INVALID_TOKEN.
Proof.
  intros Hall s'.
  assert (Hgone : lookup_token token_value s' = []).
  { unfold s'. rewrite delete_user_account_eq. cbn [fst].
    rewrite erased_account_store.
    unfold lookup_token at 1, SupabaseCRUD.read. cbn [nfc_tokens].
    rewrite filter_filter_and.
    match goal with
    | |- ?l = [] => destruct l as [|t ts] eqn:F; [reflexivity|]
    end.
    exfalso. apply filter_head_In in F. destruct F as [Hin Hq].
    apply andb_true_iff in Hq. destruct Hq as [Hq1 Hq2].
    apply negb_true_iff in Hq1. apply String.eqb_neq in Hq1. apply Hq1.
    apply Hall. unfold lookup_token, SupabaseCRUD.read.
    apply filter_In. now split. }
  split; [exact Hgone|]. intros now redeemer.
  rewrite validate_nfc_token_eq, connect_via_nfc_eq, Hgone.
  split; eexists; reflexivity.
Qed.

Lemma deleted_account_tokens_are_invalid_witness :
  lookup_token "T1" (db_store Home.db) = [Household.T1_row]
  /\ fails_with
       (snd (connect_via_nfc "T1" "U3" 500%Z
               (db_store
                  (fst (delete_user_account Home.http_str (fun _ => None)
                          "U1" Home.db)))))
       INVALID_TOKEN.
Proof.
  split; [reflexivity|].
  destruct (deleted_account_tokens_are_invalid Home.http_str (fun _ => None)
              "U1" Home.db "T1") as [_ A].
  - intros t [<-|[]]. reflexivity.
  - exact (proj2 (A 500%Z "U3")).
Defined.

(** ** Registration *)

(** Property X20.  A password of fewer than eight characters is refused
    before the identity provider is consulted, but the client never sees
    the code [INVALID_PASSWORD]: the handler's own [except Exception]
    catches the exception it has just raised and reports
    [REGISTRATION_FAILED], with the text of the caught exception as
    message. *)
Theorem short_password_is_registration_failed
    (str : string -> string -> string)
    (sign_up : UserRegistration -> AuthUser + string)
    (user_data : UserRegistration) :
  String.length (ur_password user_data) < 8 ->
  register_user str sign_up user_data
  = Raised (ContactsError "REGISTRATION_FAILED"
              (str "INVALID_PASSWORD"
                 "Password must be at least 8 characters long"))
  /\ ~ h_fails_with (register_user str sign_up user_data) "INVALID_PASSWORD"
  /\ forall sign_up',
       register_user str sign_up' user_data
       = register_user str sign_up user_data.
Proof.
  intro Hlen.
  assert (E : forall f,
            register_user str f user_data
            = Raised (ContactsError "REGISTRATION_FAILED"
                        (str "INVALID_PASSWORD"
                           "Password must be at least 8 characters long"))).
  { intro f. unfold register_user.
    apply Nat.ltb_lt in Hlen. rewrite Hlen, orb_true_r. reflexivity. }
  split; [apply E|]. split.
  - rewrite E. intros (m & H). discriminate.
  - intro f. now rewrite !E.
Qed.

Lemma short_password_is_registration_failed_witness :
  String.length "secret" < 8
  /\ register_user Home.http_str
       (fun d => inl (mkAuthUser "U9" (ur_email d) None ""))
       (mkUserRegistration "u9@example.org" "secret" None None)
     = Raised (ContactsError "REGISTRATION_FAILED"
                 (Home.http_str "INVALID_PASSWORD"
                    "Password must be at least 8 characters long")).
Proof.
  assert (H : String.length "secret" < 8) by (simpl; lia).
  split; [exact H|].
  exact (proj1 (short_password_is_registration_failed Home.http_str
                  (fun d => inl (mkAuthUser "U9" (ur_email d) None ""))
                  (mkUserRegistration "u9@example.org" "secret" None None) H)).
Defined.

(** Any failure of [register_user] carries the code
    [REGISTRATION_FAILED]; with eight characters or more the answer is the
    identity provider's. *)
Lemma register_user_cases str sign_up user_data :
  (forall c m,
     register_user str sign_up user_data = Raised (ContactsError c m) ->
     c = "REGISTRATION_FAILED")
  /\ (8 <= String.length (ur_password user_data) ->
      forall user, sign_up user_data = inl user ->
                   register_user str sign_up user_data = Returned user).
Proof.
  unfold register_user. split.
  - intros c m.
    destruct ((String.length (ur_password user_data) =? 0)%nat
              || (String.length (ur_password user_data) <? 8)%nat);
      [intro H; now injection H as <- _|].
    destruct (sign_up user_data); [discriminate|].
    intro H. now injection H as <- _.
  - intros Hlen user Hs.
    assert (E1 : (String.length (ur_password user_data) =? 0)%nat = false)
      by (apply Nat.eqb_neq; lia).
    assert (E2 : (String.length (ur_password user_data) <? 8)%nat = false)
      by (apply Nat.ltb_ge; lia).
    now rewrite E1, E2, Hs.
Qed.

(** ** What the delete methods report *)

(** Property X21.  [delete] and [delete_many] remove the same rows, but
    they report differently: [delete] answers [True] exactly when some row
    matched, while [delete_many] answers [True] always, also when nothing
    was there to delete. *)
Theorem delete_many_always_reports_true
    {R : Type} (self : Table R) (matches : R -> bool) (db : Database) :
  snd (CRUD.delete_many self matches db) = Returned true
  /\ fst (CRUD.delete_many self matches db)
     = fst (CRUD.delete self matches db)
  /\ (snd (CRUD.delete self matches db) = Returned true
      <-> exists r, In r (rows self db) /\ matches r = true)
  /\ ((forall r, In r (rows self db) -> matches r = false) ->
      snd (CRUD.delete self matches db) = Returned false
      /\ snd (CRUD.delete_many self matches db) = Returned true).
Proof.
  unfold CRUD.delete_many, CRUD.delete. cbn [fst snd].
  assert (Hiff : Nat.ltb 0 (List.length (filter matches (rows self db))) = true
                 <-> exists r, In r (rows self db) /\ matches r = true).
  { destruct (filter matches (rows self db)) as [|r rs] eqn:F.
    - split; [discriminate|]. intros (r & Hin & Hm).
      assert (Hf : In r (filter matches (rows self db)))
        by (apply filter_In; now split).
      rewrite F in Hf. destruct Hf.
    - split; [|reflexivity]. intros _. exists r.
      now apply (filter_head_In matches (rows self db) r rs). }
  split; [reflexivity|]. split; [reflexivity|]. split.
  - split.
    + intro H. apply Hiff. now injection H.
    + intro H. apply Hiff in H. now rewrite H.
  - intro Hnone. split; [|reflexivity]. f_equal.
    apply not_true_is_false. intro H. apply Hiff in H.
    destruct H as (r & Hin & Hm). rewrite (Hnone r Hin) in Hm. discriminate.
Qed.

(** ** The list of allowed origins *)

Lemma split_not_nil sep s : split sep s <> [].
Proof.
  destruct s as [|c rest]; simpl; [discriminate|].
  destruct (Ascii.eqb c sep); [discriminate|].
  destruct (split sep rest); discriminate.
Qed.

Lemma split_length sep s :
  List.length (split sep s) = S (count_char sep s).
Proof.
  induction s as [|c rest IH]; [reflexivity|].
  simpl. destruct (Ascii.eqb c sep); simpl; [now rewrite IH|].
  destruct (split sep rest) as [|piece pieces] eqn:E;
    [now destruct (split_not_nil sep rest)|].
  simpl in *. exact IH.
Qed.

Lemma split_pieces_free sep s :
  Forall (fun piece => count_char sep piece = 0) (split sep s).
Proof.
  induction s as [|c rest IH]; [repeat constructor|].
  simpl. destruct (Ascii.eqb c sep) eqn:E; [constructor; [reflexivity|exact IH]|].
  destruct (split sep rest) as [|piece pieces];
    [repeat constructor; simpl; now rewrite E|].
  inversion IH as [|? ? Hp Hps]; subst. constructor; [|exact Hps].
  simpl. now rewrite E, Hp.
Qed.

Lemma count_char_lstrip c s : count_char c (lstrip s) <= count_char c s.
Proof.
  induction s as [|d rest IH]; [reflexivity|].
  simpl. destruct (isspace d); [lia|reflexivity].
Qed.

Lemma count_char_rstrip c s : count_char c (rstrip s) <= count_char c s.
Proof.
  induction s as [|d rest IH]; [reflexivity|].
  simpl. destruct (rstrip rest) as [|e kept].
  - destruct (isspace d); simpl; lia.
  - simpl in *. lia.
Qed.

(** Property X22.  [allowed_origins_list] returns one origin more than
    the setting has commas, so never an empty list (the empty setting
    yields one empty origin), and no origin contains a comma. *)
Theorem allowed_origins_list_count (ALLOWED_ORIGINS : string) :
  List.length (allowed_origins_list ALLOWED_ORIGINS)
  = S (count_char "," ALLOWED_ORIGINS)
  /\ allowed_origins_list ALLOWED_ORIGINS <> []
  /\ Forall (fun origin => count_char "," origin = 0)
       (allowed_origins_list ALLOWED_ORIGINS)
  /\ allowed_origins_list "" = [""%string].
Proof.
  unfold allowed_origins_list. split; [|split; [|split]].
  - now rewrite length_map, split_length.
  - intro H. apply map_eq_nil in H. now apply split_not_nil in H.
  - apply Forall_forall. intros o Ho. apply in_map_iff in Ho.
    destruct Ho as (piece & <- & Hin).
    pose proof (split_pieces_free "," ALLOWED_ORIGINS) as Hfree.
    rewrite Forall_forall in Hfree. specialize (Hfree piece Hin).
    unfold strip.
    pose proof (count_char_lstrip "," (rstrip piece)).
    pose proof (count_char_rstrip "," piece). lia.
  - reflexivity.
Qed.

Lemma lstrip_starts s : starts_with_space (lstrip s) = false.
Proof.
  induction s as [|c rest IH]; [reflexivity|].
  simpl. destruct (isspace c) eqn:E; [exact IH|]. simpl. exact E.
Qed.

Lemma rstrip_ends s : ends_with_space (rstrip s) = false.
Proof.
  induction s as [|c rest IH]; [reflexivity|].
  simpl. destruct (rstrip rest) as [|d kept].
  - destruct (isspace c) eqn:E; [reflexivity|]. simpl. exact E.
  - exact IH.
Qed.

Lemma lstrip_keeps_end s :
  ends_with_space s = false -> ends_with_space (lstrip s) = false.
Proof.
  induction s as [|c rest IH]; [reflexivity|].
  intro H. simpl. destruct (isspace c) eqn:E; [|exact H].
  apply IH. destruct rest as [|d rest']; [reflexivity|exact H].
Qed.

(** Property X23.  Every origin [allowed_origins_list] returns is
    trimmed: it neither starts nor ends with a white-space character. *)
Theorem allowed_origins_list_trimmed (ALLOWED_ORIGINS : string) :
  Forall
    (fun origin =>
       starts_with_space origin = false /\ ends_with_space origin = false)
    (allowed_origins_list ALLOWED_ORIGINS).
Proof.
  apply Forall_forall. intros o Ho. unfold allowed_origins_list in Ho.
  apply in_map_iff in Ho. destruct Ho as (piece & <- & _). unfold strip.
  split; [apply lstrip_starts|]. apply lstrip_keeps_end, rstrip_ends.
Qed.

Lemma concat_split sep s :
  String.concat (String sep EmptyString) (split sep s) = s.
Proof.
  induction s as [|c rest IH]; [reflexivity|].
  simpl. destruct (Ascii.eqb_spec c sep) as [->|Hne].
  - destruct (split sep rest) as [|piece pieces] eqn:E;
      [now destruct (split_not_nil sep rest)|].
    simpl in *. now rewrite IH.
  - destruct (split sep rest) as [|piece pieces] eqn:E;
      [now destruct (split_not_nil sep rest)|].
    destruct pieces as [|piece' pieces']; simpl in *; now rewrite <- IH.
Qed.

Lemma rstrip_id s : ends_with_space s = false -> rstrip s = s.
Proof.
  induction s as [|c rest IH]; [reflexivity|].
  intro H. simpl. destruct rest as [|d rest'].
  - simpl in *. now rewrite H.
  - rewrite IH by exact H. reflexivity.
Qed.

Lemma lstrip_id s : starts_with_space s = false -> lstrip s = s.
Proof.
  destruct s as [|c rest]; [reflexivity|]. simpl. now intros ->.
Qed.

(** Property X24.  Splitting and joining are inverse: when no piece
    between the commas of the setting starts or ends with white space,
    the origins returned, joined by commas, spell the setting again. *)
Theorem allowed_origins_list_round_trip (ALLOWED_ORIGINS : string) :
  Forall
    (fun piece =>
       starts_with_space piece = false /\ ends_with_space piece = false)
    (split "," ALLOWED_ORIGINS) ->
  String.concat "," (allowed_origins_list ALLOWED_ORIGINS) = ALLOWED_ORIGINS.
Proof.
  intro H. unfold allowed_origins_list.
  assert (E : map strip (split "," ALLOWED_ORIGINS) = split "," ALLOWED_ORIGINS).
  { rewrite <- (map_id (split "," ALLOWED_ORIGINS)) at 2.
    apply map_ext_in. intros piece Hin. rewrite Forall_forall in H.
    destruct (H piece Hin) as [Hs He]. unfold strip.
    rewrite (rstrip_id _ He). now apply lstrip_id. }
  rewrite E. apply concat_split.
Qed.

Lemma allowed_origins_list_round_trip_witness :
  allowed_origins_list "https://a.example,http://localhost:3000"
  = ["https://a.example"%string; "http://localhost:3000"%string]
  /\ String.concat ","
       (allowed_origins_list "https://a.example,http://localhost:3000")
     = "https://a.example,http://localhost:3000"%string.
Proof.
  split; [reflexivity|].
  apply allowed_origins_list_round_trip.
  vm_compute. repeat constructor.
Defined.

(** ** Creating a profile *)

Lemma filter_none {A : Type} (q : A -> bool) (l : list A) :
  (forall x, In x l -> q x = false) -> filter q l = [].
Proof.
  induction l as [|a l IH]; intro H; [reflexivity|].
  simpl. rewrite (H a (or_introl eq_refl)). apply IH.
  intros x Hx. apply H. now right.
Qed.

Lemma filter_all {A : Type} (q : A -> bool) (l : list A) :
  (forall x, In x l -> q x = true) -> filter q l = l.
Proof.
  intro H. apply forallb_filter_id. now apply forallb_forall.
Qed.

Lemma create_profile_exists ty base details u db :
  has_profile u ty (db_store db) ->
  fst (create_profile ty base details u db) = db
  /\ h_fails_with (snd (create_profile ty base details u db)) "PROFILE_EXISTS".
Proof.
  unfold has_profile. intro H.
  destruct ty; unfold create_profile, create_family_profile,
    create_friends_profile, create_work_profile, create_acquaintance_profile,
    create_typed_profile, h_except, h_bind, CRUD.read;
    cbn [rows profile_crud];
    match goal with
    | |- context [filter ?q ?l] =>
        change (filter q l) with (SupabaseCRUD.read q l);
        destruct (SupabaseCRUD.read q l); [contradiction|]
    end;
    (split; [reflexivity|eexists; reflexivity]).
Qed.

Lemma create_profile_fresh ty base details u db :
  ~ has_profile u ty (db_store db) ->
  let p := mkProfile (next_id (db_store db)) u ty base in
  let d := mkProfileDetails (S (next_id (db_store db)))
             (next_id (db_store db)) details in
  snd (create_profile ty base details u db) = Returned (p, d)
  /\ db_store (fst (create_profile ty base details u db))
     = mkStore (nfc_tokens (db_store db)) (connections (db_store db))
         (profiles (db_store db) ++ [p]) (S (S (next_id (db_store db))))
  /\ forall ty',
       detail_rows ty' (fst (create_profile ty base details u db))
       = if ProfileType_eqb ty' ty then detail_rows ty db ++ [d]
         else detail_rows ty' db.
Proof.
  unfold has_profile. intro H.
  assert (E : SupabaseCRUD.read (profile_query u ty) (profiles (db_store db))
              = []).
  { destruct (SupabaseCRUD.read _ (profiles (db_store db)));
      [reflexivity|]. exfalso. apply H. discriminate. }
  unfold SupabaseCRUD.read in E.
  destruct ty; unfold create_profile, create_family_profile,
    create_friends_profile, create_work_profile, create_acquaintance_profile,
    create_typed_profile, h_except, h_bind, CRUD.read;
    cbn [rows profile_crud]; rewrite E;
    (split; [reflexivity|split; [reflexivity|intros []; reflexivity]]).
Qed.

Lemma profile_query_new u ty u' ty' id base :
  profile_query u' ty' (mkProfile id u ty base)
  = String.eqb u u' && ProfileType_eqb ty ty'.
Proof. reflexivity. Qed.

(** Property X25.  The four profile-creation handlers keep one profile
    per user and type.  When the caller already has a profile of the type,
    the call fails with [PROFILE_EXISTS] and changes nothing.  Otherwise it
    succeeds: it appends one base row for the caller and the type, and one
    detail row that refers to it, to the table of that type, after which
    the base row is the caller's only profile of the type.  If no user had
    two profiles of one type before, none has afterwards. *)
Theorem create_profile_keeps_one_per_type
    (ty : ProfileType) (base details user_id : string) (db : Database) :
  let r := create_profile ty base details user_id db in
  (has_profile user_id ty (db_store db) ->
   h_fails_with (snd r) "PROFILE_EXISTS" /\ fst r = db)
  /\ (~ has_profile user_id ty (db_store db) ->
      exists p d,
        snd r = Returned (p, d)
        /\ pf_user_id p = user_id /\ pf_type p = ty
        /\ pd_profile_id d = pf_id p
        /\ profiles (db_store (fst r)) = profiles (db_store db) ++ [p]
        /\ detail_rows ty (fst r) = detail_rows ty db ++ [d]
        /\ SupabaseCRUD.read (profile_query user_id ty)
             (profiles (db_store (fst r))) = [p])
  /\ (one_profile_per_type db -> one_profile_per_type (fst r)).
Proof.
  intro r. unfold r. split; [|split].
  - intro H. destruct (create_profile_exists ty base details user_id db H).
    now split.
  - intro H.
    destruct (create_profile_fresh ty base details user_id db H)
      as (Hr & Hs & Hd).
    eexists _, _. split; [exact Hr|]. rewrite Hs, Hd, ProfileType_eqb_refl.
    cbn [pf_user_id pf_type pd_profile_id pf_id profiles].
    repeat (split; [reflexivity|]).
    unfold SupabaseCRUD.read. rewrite filter_app.
    assert (E : filter (profile_query user_id ty) (profiles (db_store db)) = []).
    { unfold has_profile, SupabaseCRUD.read in H.
      destruct (filter _ (profiles (db_store db))); [reflexivity|].
      exfalso. apply H. discriminate. }
    rewrite E. cbn [filter app]. rewrite profile_query_new.
    now rewrite String.eqb_refl, ProfileType_eqb_refl.
  - intros Hone u' ty'.
    destruct (has_profile_dec user_id ty (db_store db)) as [H|H].
    + destruct (create_profile_exists ty base details user_id db H) as [-> _].
      apply Hone.
    + destruct (create_profile_fresh ty base details user_id db H)
        as (_ & -> & _).
      cbn [profiles]. unfold SupabaseCRUD.read. rewrite filter_app.
      cbn [filter]. rewrite profile_query_new.
      destruct (String.eqb_spec user_id u') as [<-|Hu];
        [destruct (ProfileType_eqb ty ty') eqn:Et|].
      * apply ProfileType_eqb_eq in Et. subst ty'.
        unfold has_profile, SupabaseCRUD.read in H.
        destruct (filter _ (profiles (db_store db)));
          [simpl; lia|]. exfalso. apply H. discriminate.
      * cbn [andb]. rewrite app_nil_r. apply Hone.
      * cbn [andb]. rewrite app_nil_r. apply Hone.
Qed.

Lemma create_profile_keeps_one_per_type_witness :
  has_profile "U1" family (db_store Home.db)
  /\ ~ has_profile "U2" work (db_store Home.db)
  /\ h_fails_with (snd (create_profile family "card" "phone" "U1" Home.db))
       "PROFILE_EXISTS"
  /\ exists p d,
       snd (create_profile work "desk of U2" "linkedin" "U2" Home.db)
       = Returned (p, d)
       /\ pd_profile_id d = pf_id p.
Proof.
  assert (A : has_profile "U1" family (db_store Home.db))
    by (intro H; discriminate H).
  assert (B : ~ has_profile "U2" work (db_store Home.db))
    by (intro H; apply H; reflexivity).
  split; [exact A|]. split; [exact B|].
  destruct (create_profile_keeps_one_per_type family "card" "phone" "U1"
              Home.db) as (P & _ & _).
  destruct (create_profile_keeps_one_per_type work "desk of U2" "linkedin"
              "U2" Home.db) as (_ & Q & _).
  split; [exact (proj1 (P A))|].
  destruct (Q B) as (p & d & Hr & _ & _ & Hd & _).
  exists p, d. now split.
Defined.

Lemma fresh_profile_lookup db p :
  (forall q, In q (profiles (db_store db)) -> pf_id q < pf_id p) ->
  filter (eq_id pf_id (pf_id p)) (profiles (db_store db) ++ [p]) = [p]
  /\ filter (fun q => negb (eq_id pf_id (pf_id p) q))
       (profiles (db_store db) ++ [p])
     = profiles (db_store db).
Proof.
  intro Hlt. rewrite !filter_app. cbn [filter]. unfold eq_id at 2 4.
  rewrite Nat.eqb_refl. cbn [negb]. split.
  - rewrite filter_none; [reflexivity|].
    intros q Hq. unfold eq_id. apply Nat.eqb_neq. specialize (Hlt q Hq). lia.
  - rewrite app_nil_r. apply filter_all.
    intros q Hq. unfold eq_id. apply negb_true_iff, Nat.eqb_neq.
    specialize (Hlt q Hq). lia.
Qed.

Lemma fresh_details_lookup (rows : list ProfileDetails) d :
  (forall e, In e rows -> pd_profile_id e < pd_profile_id d) ->
  filter (eq_id pd_profile_id (pd_profile_id d)) (rows ++ [d]) = [d]
  /\ filter (fun e => negb (eq_id pd_profile_id (pd_profile_id d) e))
       (rows ++ [d])
     = rows.
Proof.
  intro Hlt. rewrite !filter_app. cbn [filter]. unfold eq_id at 2 4.
  rewrite Nat.eqb_refl. cbn [negb]. split.
  - rewrite filter_none; [reflexivity|].
    intros e He. unfold eq_id. apply Nat.eqb_neq. specialize (Hlt e He). lia.
  - rewrite app_nil_r. apply filter_all.
    intros e He. unfold eq_id. apply negb_true_iff, Nat.eqb_neq.
    specialize (Hlt e He). lia.
Qed.

(** Property X26.  A profile that was just created can be used.  When
    the identifiers in use lie below the counter of the store, then after a
    successful creation the caller gets the two new rows back from
    [get_profile] under the new [id], sees the profile with its details in
    [list_profiles], and can issue an NFC token for the type. *)
Theorem created_profile_is_usable
    (str : string -> string -> string) (ty : ProfileType)
    (base details user_id : string) (db : Database) (now : datetime)
    (rnd : nat -> nat) :
  ~ has_profile user_id ty (db_store db) ->
  profile_ids_below_counter db ->
  let db1 := fst (create_profile ty base details user_id db) in
  exists p d,
    snd (create_profile ty base details user_id db) = Returned (p, d)
    /\ get_profile (pf_id p) user_id db1 = (db1, Returned (p, d))
    /\ (exists views,
          snd (list_profiles str false user_id db1) = Returned views
          /\ In (mkProfileView p (Some d) true None None) views)
    /\ succeeds (snd (generate_nfc_token user_id ty now rnd (db_store db1))).
Proof.
  intros Hno (Hp & Hd) db1.
  destruct (create_profile_fresh ty base details user_id db Hno)
    as (Hr & Hs & Hdt).
  fold db1 in Hs, Hdt.
  set (p := mkProfile (next_id (db_store db)) user_id ty base) in *.
  set (d := mkProfileDetails (S (next_id (db_store db)))
              (next_id (db_store db)) details) in *.
  assert (Hps : profiles (db_store db1) = profiles (db_store db) ++ [p])
    by now rewrite Hs.
  destruct (fresh_profile_lookup db p Hp) as [Fp _].
  destruct (fresh_details_lookup (detail_rows ty db) d (Hd ty)) as [Fd _].
  assert (Hdet : filter (eq_id pd_profile_id (pf_id p)) (detail_rows ty db1)
                 = [d]).
  { rewrite Hdt, ProfileType_eqb_refl. exact Fd. }
  exists p, d. split; [exact Hr|]. split; [|split].
  - rewrite get_profile_eq, Hps, Fp. cbn [pf_user_id pf_type p].
    rewrite String.eqb_refl. fold p. now rewrite Hdet.
  - rewrite list_profiles_eq. cbn [snd]. eexists. split; [reflexivity|].
    rewrite app_nil_r.
    assert (E : own_view db1 user_id p = mkProfileView p (Some d) true None None).
    { unfold own_view, details_of. cbn [pf_type pf_user_id p]. fold p.
      now rewrite Hdet, String.eqb_refl. }
    rewrite <- E. apply in_map. apply profiles_of_In. rewrite Hps.
    split; [apply in_or_app; right; now left|reflexivity].
  - rewrite generate_nfc_token_eq, Hps. unfold SupabaseCRUD.read.
    rewrite filter_app. cbn [filter]. unfold p at 1.
    rewrite profile_query_new, String.eqb_refl, ProfileType_eqb_refl.
    cbn [andb].
    destruct (filter (profile_query user_id ty) (profiles (db_store db)));
      eexists; reflexivity.
Qed.

Lemma home_ids_below_counter : profile_ids_below_counter Home.db.
Proof.
  split.
  - intros q [<-|[<-|[<-|[]]]]; simpl; lia.
  - intros ty e H. destruct ty; simpl in H;
      repeat (destruct H as [<-|H]; [simpl; lia|]); destruct H.
Defined.

Lemma created_profile_is_usable_witness :
  ~ has_profile "U2" work (db_store Home.db)
  /\ profile_ids_below_counter Home.db
  /\ exists p d,
       snd (create_profile work "desk of U2" "linkedin" "U2" Home.db)
       = Returned (p, d)
       /\ succeeds
            (snd (generate_nfc_token "U2" work 10%Z Scenario.draws
                    (db_store
                       (fst (create_profile work "desk of U2" "linkedin" "U2"
                               Home.db))))).
Proof.
  assert (B : ~ has_profile "U2" work (db_store Home.db))
    by (intro H; apply H; reflexivity).
  split; [exact B|]. split; [exact home_ids_below_counter|].
  destruct (created_profile_is_usable Home.http_str work "desk of U2"
              "linkedin" "U2" Home.db 10%Z Scenario.draws B
              home_ids_below_counter) as (p & d & Hr & _ & _ & Hg).
  exists p, d. split; [exact Hr|exact Hg].
Defined.

(** Property X27.  Creating a profile and deleting it again restores the
    tables.  When the identifiers in use lie below the counter of the
    store, deleting a profile that was just created, under the [id] it was
    given, succeeds and leaves the profiles, every detail table, the tokens
    and the connections as they were before the creation; only the counter
    has moved on. *)
Theorem create_then_delete_restores
    (ty : ProfileType) (base details user_id : string) (db : Database) :
  ~ has_profile user_id ty (db_store db) ->
  profile_ids_below_counter db ->
  let db1 := fst (create_profile ty base details user_id db) in
  let r := delete_profile (next_id (db_store db)) user_id db1 in
  snd r = Returned "Profile deleted successfully"
  /\ profiles (db_store (fst r)) = profiles (db_store db)
  /\ (forall ty', detail_rows ty' (fst r) = detail_rows ty' db)
  /\ nfc_tokens (db_store (fst r)) = nfc_tokens (db_store db)
  /\ connections (db_store (fst r)) = connections (db_store db)
  /\ next_id (db_store (fst r)) = S (S (next_id (db_store db))).
Proof.
  intros Hno (Hp & Hd) db1 r.
  destruct (create_profile_fresh ty base details user_id db Hno)
    as (_ & Hs & Hdt).
  fold db1 in Hs, Hdt.
  set (p := mkProfile (next_id (db_store db)) user_id ty base) in *.
  set (d := mkProfileDetails (S (next_id (db_store db)))
              (next_id (db_store db)) details) in *.
  assert (Hps : profiles (db_store db1) = profiles (db_store db) ++ [p])
    by now rewrite Hs.
  destruct (fresh_profile_lookup db p Hp) as [Fp Gp].
  destruct (fresh_details_lookup (detail_rows ty db) d (Hd ty)) as [_ Gd].
  cbn [pf_id p] in Fp, Gp. cbn [pd_profile_id d] in Gd.
  assert (Hr : r = (erase_profile ty (next_id (db_store db)) db1,
                    Returned "Profile deleted successfully")).
  { unfold r. rewrite delete_profile_eq, Hps, Fp. cbn [pf_user_id pf_type p].
    now rewrite String.eqb_refl. }
  rewrite Hr. cbn [fst snd]. rewrite erase_profile_store, Hps, Gp, Hs.
  cbn [with_profiles profiles nfc_tokens connections next_id].
  repeat (split; [reflexivity|]). split; [|repeat split].
  intro ty'. rewrite erase_profile_details, !Hdt, ProfileType_eqb_refl.
  destruct (ProfileType_eqb ty' ty) eqn:E; [|reflexivity].
  apply ProfileType_eqb_eq in E. subst ty'. exact Gd.
Qed.

Lemma create_then_delete_restores_witness :
  ~ has_profile "U2" work (db_store Home.db)
  /\ profiles
       (db_store
          (fst (delete_profile 12 "U2"
                  (fst (create_profile work "desk of U2" "linkedin" "U2"
                          Home.db)))))
     = profiles (db_store Home.db).
Proof.
  assert (B : ~ has_profile "U2" work (db_store Home.db))
    by (intro H; apply H; reflexivity).
  split; [exact B|].
  exact (proj1 (proj2 (create_then_delete_restores work "desk of U2"
                         "linkedin" "U2" Home.db B home_ids_below_counter))).
Defined.
